(** * cg-dashboard: the OAuth handshake controllers, the settings loader and
      the server start-up, embedded from the Go sources.

    - [Helpers]     : package helpers  (settings.go)
    - [Controllers] : package controllers (Ping, LoginHandshake,
                      OAuthCallback, Logout and the private redirect)
    - [Server]      : package main (the start-up that loads an env.VarSet:
                      startApp and the two variable sets)

    Go values are modelled as follows.  A [string] is a Rocq [string]
    (a sequence of bytes); [time.Time] is an integer number of seconds
    counted from Go's zero time, so that [time.Time{}] is [0]; the
    [map[interface{}]interface{}] of a gorilla session is a [gmap] from the
    (string) keys the program uses to a tagged union of the dynamic types
    it stores; a function returning [(T, error)] returns [result T].
    Handlers write to the [http.ResponseWriter], print to the process
    output and call the OAuth provider: these effects are recorded, in the
    order in which they happen, as a list of [Event]s. *)

From stdpp Require Import base option gmap strings list.
From Stdlib Require Import ZArith Ascii String Bool.

Local Open Scope string_scope.
Local Open Scope Z_scope.
Local Open Scope list_scope.

(** ** Go preliminaries *)

(** Names of the environment variables read by [InitSettings].  They are
    string constants of package helpers declared next to settings.go; only
    their identity matters to the loader. *)
Inductive EnvVarName :=
| TemplatesPathEnvVar | HostnameEnvVar | APIURLEnvVar | LoginURLEnvVar
| UAAURLEnvVar | LogURLEnvVar | PProfEnabledEnvVar | BuildInfoEnvVar
| LocalCFEnvVar | SecureCookiesEnvVar | ClientIDEnvVar | ClientSecretEnvVar
| CSRFKeyEnvVar | SessionAuthenticationEnvVar | SessionEncryptionEnvVar
| SMTPFromEnvVar | SMTPHostEnvVar | SMTPPassEnvVar | SMTPPortEnvVar
| SMTPUserEnvVar | SMTPCertEnvVar | TICSecretEnvVar | NewRelicLicenseEnvVar.

(** Go's [error] values, by the way they are built in this program. *)
Inductive error :=
| errorString (msg : string)                (* errors.New(msg) *)
| VarNotFound (name : EnvVarName)           (* env: IsVarNotFound holds *)
| ErrLength                                 (* encoding/hex *)
| InvalidByteError (b : ascii)              (* encoding/hex *)
| Errorf_q_v (format : string) (name : EnvVarName) (cause : error)
                                            (* fmt.Errorf(format, name, cause) *)
| ParseError (input : string).              (* strconv *)

Inductive result (A : Type) :=
| Ok (a : A)
| Err (e : error).
Arguments Ok {A} a.
Arguments Err {A} e.

Definition Time := Z.
(** [time.Time{}] *)
Definition zeroTime : Time := 0.

(** ** golang.org/x/oauth2: the data the program touches *)

Record Endpoint := mkEndpoint {
  AuthURL : string;
  TokenURL : string
}.

Record Config := mkConfig {
  ClientID : string;
  ClientSecret : string;
  ConfigEndpoint : Endpoint;
  RedirectURL : string;
  Scopes : list string
}.

Record Token := mkToken {
  AccessToken : string;
  TokenType : string;
  RefreshToken : string;
  Expiry : Time
}.

(** [clientcredentials.Config] *)
Record ClientCredentialsConfig := mkClientCredentialsConfig {
  ccClientID : string;
  ccClientSecret : string;
  ccTokenURL : string;
  ccScopes : list string
}.

(** ** gorilla/sessions: the data the program touches *)

(** The dynamic types found behind the [interface{}] values of a session. *)
Inductive value :=
| VNil
| VString (s : string)
| VToken (t : Token)
| VInt (n : Z).

Record Options := mkOptions {
  Path : string;
  MaxAge : Z;
  Secure : bool;
  HttpOnly : bool
}.

Record Session := mkSession {
  Values : gmap string value;
  SessionOptions : Options
}.

(** [m[k]] on a Go map of interfaces: a missing key reads as [nil]. *)
Definition index (m : gmap string value) (k : string) : value :=
  default VNil (m !! k).

(** [s != v] for a string [s] and an interface value [v]: they are equal
    only when [v] holds a string with the same bytes. *)
Definition string_neq_interface (s : string) (v : value) : bool :=
  match v with
  | VString s' => negb (String.eqb s s')
  | _ => true
  end.

(** [v.(oauth2.Token)] with the comma-ok form. *)
Definition assertToken (v : value) : option Token :=
  match v with
  | VToken t => Some t
  | _ => None
  end.

Definition setValue (k : string) (v : value) (s : Session) : Session :=
  mkSession (<[k := v]> (Values s)) (SessionOptions s).

Definition deleteValue (k : string) (s : Session) : Session :=
  mkSession (delete k (Values s)) (SessionOptions s).

Definition setMaxAge (n : Z) (s : Session) : Session :=
  mkSession (Values s)
            (mkOptions (Path (SessionOptions s)) n
                       (Secure (SessionOptions s)) (HttpOnly (SessionOptions s))).

(** ** net/http: requests and the effects of a handler *)

(** The context handed to the oauth2 calls: [CreateContext] only decides
    whether the HTTP client skips certificate verification. *)
Record NetContext := mkNetContext {
  InsecureSkipVerify : bool
}.

(** A request: its URL query ([url.Values]) and the session that
    [Sessions.Get(req, "session")] yields for it, an existing one decoded
    from the cookie or a new one (the error of [Get] is ignored by every
    caller).  The store caches the session per request, so every [Get] of one
    request yields the same session. *)
Record Request := mkRequest {
  Query : gmap string (list string);
  RequestSession : Session
}.

(** [url.Values.Get]: the first value of the key, or the empty string. *)
Definition Get (q : gmap string (list string)) (key : string) : string :=
  match q !! key with
  | Some (v :: _) => v
  | _ => ""
  end.

Definition StatusOK : Z := 200.
Definition StatusFound : Z := 302.
Definition StatusUnauthorized : Z := 401.
Definition StatusInternalServerError : Z := 500.

Inductive Event :=
| WriteHeader (code : Z)                         (* rw.WriteHeader *)
| Write (body : string)                          (* rw.Write *)
| Redirect (url : string) (code : Z)             (* http.Redirect *)
| Println (msg : string)                         (* fmt.Println, log.Println *)
| CallStateGenerator                             (* Settings.StateGenerator() *)
| CallExchange (ctx : NetContext) (cfg : Config) (code : string)
                                                 (* cfg.Exchange(ctx, code) *)
| CallTokenSource (ctx : NetContext) (cfg : Config) (t : Token)
                                                 (* cfg.TokenSource(ctx, t).Token() *)
| SessionSave (s : Session).                     (* session.Save(req, rw) *)

(** What a handler leaves behind: its effects in order and the session
    object as it stands when the handler returns. *)
Record Outcome := mkOutcome {
  events : list Event;
  session : Session
}.

(** The status line net/http sends: the first explicit header write, and
    200 when the handler writes a body first or writes nothing at all. *)
Fixpoint responseStatus (evs : list Event) : Z :=
  match evs with
  | [] => StatusOK
  | WriteHeader c :: _ => c
  | Redirect _ c :: _ => c
  | Write _ :: _ => StatusOK
  | _ :: rest => responseStatus rest
  end.

(** The bytes the handler itself hands to [rw.Write], concatenated.  The
    short HTML body that [http.Redirect] writes is part of the [Redirect]
    event and is not repeated here. *)
Fixpoint responseBody (evs : list Event) : string :=
  match evs with
  | [] => ""
  | Write b :: rest => b +:+ responseBody rest
  | _ :: rest => responseBody rest
  end.

Definition isRedirect (e : Event) : bool :=
  match e with Redirect _ _ => true | _ => false end.

Definition isProviderCall (e : Event) : bool :=
  match e with
  | CallExchange _ _ _ | CallTokenSource _ _ _ => true
  | _ => false
  end.

Definition isStateGeneration (e : Event) : bool :=
  match e with CallStateGenerator => true | _ => false end.

Definition isSessionSave (e : Event) : bool :=
  match e with SessionSave _ => true | _ => false end.

(** ** Package helpers: settings.go *)
Module Helpers.

(** The cookie store built by [sessions.NewCookieStore]. *)
Record CookieStore := mkCookieStore {
  authenticationKey : string;
  encryptionKey : string;
  StoreOptions : Options
}.

Definition setStoreHttpOnly (b : bool) (st : CookieStore) : CookieStore :=
  mkCookieStore (authenticationKey st) (encryptionKey st)
    (mkOptions (Path (StoreOptions st)) (MaxAge (StoreOptions st))
               (Secure (StoreOptions st)) b).

Definition setStoreSecure (b : bool) (st : CookieStore) : CookieStore :=
  mkCookieStore (authenticationKey st) (encryptionKey st)
    (mkOptions (Path (StoreOptions st)) (MaxAge (StoreOptions st))
               b (HttpOnly (StoreOptions st))).

(** [Settings].  The pointer fields [OAuthConfig] and
    [HighPrivilegedOauthConfig] are modelled by the configuration they
    point to: [InitSettings] assigns both before any handler runs and
    nothing reassigns them. *)
Record Settings := mkSettings {
  OAuthConfig : Config;
  ConsoleAPI : string;
  LoginURL : string;
  Sessions : CookieStore;
  StateGenerator : unit -> result string;
  UaaURL : string;
  LogURL : string;
  TemplatesPath : string;
  HighPrivilegedOauthConfig : ClientCredentialsConfig;
  PProfEnabled : bool;
  BuildInfo : string;
  SecureCookies : bool;
  LocalCF : bool;
  AppURL : string;
  SMTPHost : string;
  SMTPPort : string;
  SMTPUser : string;
  SMTPPass : string;
  SMTPFrom : string;
  SMTPCert : string;
  TICSecret : string;
  CSRFKey : string
}.

(** [CreateContext]: with [LocalCF] the HTTP client of the context skips
    certificate verification. *)
Definition CreateContext (s : Settings) : NetContext :=
  if LocalCF s then mkNetContext true else mkNetContext false.

(** *** env.VarSet (github.com/govau/cf-common/env) *)

(** A variable set is a list of lookups, consulted in order. *)
Definition Lookup := EnvVarName -> option string.
Definition VarSet := list Lookup.

Fixpoint lookupVar (vs : VarSet) (name : EnvVarName) : option string :=
  match vs with
  | [] => None
  | l :: rest =>
      match l name with
      | Some v => Some v
      | None => lookupVar rest name
      end
  end.

(** A computation of the body of [InitSettings]: it goes on with a
    value, leaves the function with [return err], or panics. *)
Inductive exec (A : Type) :=
| Val (a : A)
| Return (e : error)
| Panic (e : error).
Arguments Val {A} a.
Arguments Return {A} e.
Arguments Panic {A} e.

#[global] Instance exec_ret : MRet exec := fun A a => Val a.

#[global] Instance exec_bind : MBind exec := fun A B k x =>
  match x with
  | Val a => k a
  | Return e => Return e
  | Panic e => Panic e
  end.

(** [strconv.ParseBool] *)
Definition ParseBool (str : string) : result bool :=
  if bool_decide (str ∈ ["1"; "t"; "T"; "TRUE"; "true"; "True"]) then Ok true
  else if bool_decide (str ∈ ["0"; "f"; "F"; "FALSE"; "false"; "False"]) then Ok false
  else Err (ParseError str).

(** [envVars.String(name, defaultVal)] *)
Definition String_ (vs : VarSet) (name : EnvVarName) (defaultVal : string) : string :=
  default defaultVal (lookupVar vs name).

(** [envVars.MustString(name)]: panics with a var-not-found error when no
    lookup binds the name. *)
Definition MustString (vs : VarSet) (name : EnvVarName) : exec string :=
  match lookupVar vs name with
  | Some v => Val v
  | None => Panic (VarNotFound name)
  end.

(** [envVars.MustBool(name)]: [MustString], then panics with the parse
    error when the value is not a boolean.  What the library does with an
    unbound flag is not to be seen in this repository: here it panics as
    [MustString] does. *)
Definition MustBool (vs : VarSet) (name : EnvVarName) : exec bool :=
  v ← MustString vs name;
  match ParseBool v with
  | Ok b => Val b
  | Err e => Panic e
  end.

(** [env.IsVarNotFound] *)
Definition IsVarNotFound (e : error) : bool :=
  match e with
  | VarNotFound _ => true
  | _ => false
  end.

(** [v, err := f(); if err != nil { return wrap(err) }] *)
Definition orReturn {A : Type} (r : result A) (wrap : error -> error) : exec A :=
  match r with
  | Ok a => Val a
  | Err e => Return (wrap e)
  end.

Definition insecureCookiesError : error :=
  errorString "cannot run with insecure cookies when targeting a production CF environment".

(** The safe guard of [InitSettings] (settings.go, lines 117-121). *)
Definition secureCookiesGuard (localCF secureCookies : bool) : exec unit :=
  if Bool.eqb localCF false && Bool.eqb secureCookies false
  then Return insecureCookiesError
  else Val tt.

Section InitSettings.

(** Library functions whose results the loader only stores:
    [helpers.GenerateRandomString] (crypto/rand), [hex.DecodeString] and
    [sessions.NewCookieStore]. *)
Variable GenerateRandomString : Z -> result string.
Variable hexDecodeString : string -> result string.
Variable NewCookieStore : string -> string -> CookieStore.

(** The body of [InitSettings], statement by statement.  The struct
    literals evaluate their fields in source order.  The receiver is
    filled as the function goes; its callers drop it on every failing
    path, so the model yields the [Settings] on success only. *)
Definition InitSettings_body (envVars : VarSet) : exec Settings :=
  let templatesPath := String_ envVars TemplatesPathEnvVar "./templates" in
  appURL ← MustString envVars HostnameEnvVar;
  consoleAPI ← MustString envVars APIURLEnvVar;
  loginURL ← MustString envVars LoginURLEnvVar;
  uaaURL ← MustString envVars UAAURLEnvVar;
  logURL ← MustString envVars LogURLEnvVar;
  pprofEnabled ← MustBool envVars PProfEnabledEnvVar;
  let buildInfo := String_ envVars BuildInfoEnvVar "developer-build" in
  localCF ← MustBool envVars LocalCFEnvVar;
  secureCookies ← MustBool envVars SecureCookiesEnvVar;
  _ ← secureCookiesGuard localCF secureCookies;
  clientID ← MustString envVars ClientIDEnvVar;
  clientSecret ← MustString envVars ClientSecretEnvVar;
  authHost ← MustString envVars LoginURLEnvVar;
  tokenHost ← MustString envVars UAAURLEnvVar;
  let oauthConfig :=
    mkConfig clientID clientSecret
      (mkEndpoint (authHost +:+ "/oauth/authorize") (tokenHost +:+ "/oauth/token"))
      (appURL +:+ "/oauth2callback")
      ["cloud_controller.read"; "cloud_controller.write";
       "cloud_controller.admin"; "scim.read"; "openid"] in
  let stateGenerator := fun _ : unit => GenerateRandomString 32 in
  csrfHex ← MustString envVars CSRFKeyEnvVar;
  csrfKey ← orReturn (hexDecodeString csrfHex)
               (Errorf_q_v "could not decode hex env var %q: %v" CSRFKeyEnvVar);
  authHex ← MustString envVars SessionAuthenticationEnvVar;
  sessionAuthenticationKey ← orReturn (hexDecodeString authHex)
               (Errorf_q_v "could not decode hex env var %q: %v" SessionAuthenticationEnvVar);
  encHex ← MustString envVars SessionEncryptionEnvVar;
  sessionEncryptionKey ← orReturn (hexDecodeString encHex) (fun err => err);
  let store :=
    setStoreSecure secureCookies
      (setStoreHttpOnly true
         (NewCookieStore sessionAuthenticationKey sessionEncryptionKey)) in
  hpClientID ← MustString envVars ClientIDEnvVar;
  hpClientSecret ← MustString envVars ClientSecretEnvVar;
  hpTokenHost ← MustString envVars UAAURLEnvVar;
  let highPrivileged :=
    mkClientCredentialsConfig hpClientID hpClientSecret
      (hpTokenHost +:+ "/oauth/token")
      ["scim.invite"; "cloud_controller.admin"; "scim.read"] in
  smtpFrom ← MustString envVars SMTPFromEnvVar;
  smtpHost ← MustString envVars SMTPHostEnvVar;
  let smtpPass := String_ envVars SMTPPassEnvVar "" in
  let smtpPort := String_ envVars SMTPPortEnvVar "" in
  let smtpUser := String_ envVars SMTPUserEnvVar "" in
  let smtpCert := String_ envVars SMTPCertEnvVar "" in
  let ticSecret := String_ envVars TICSecretEnvVar "" in
  Val {| OAuthConfig := oauthConfig; ConsoleAPI := consoleAPI;
         LoginURL := loginURL; Sessions := store;
         StateGenerator := stateGenerator; UaaURL := uaaURL;
         LogURL := logURL; TemplatesPath := templatesPath;
         HighPrivilegedOauthConfig := highPrivileged;
         PProfEnabled := pprofEnabled; BuildInfo := buildInfo;
         SecureCookies := secureCookies; LocalCF := localCF;
         AppURL := appURL; SMTPHost := smtpHost; SMTPPort := smtpPort;
         SMTPUser := smtpUser; SMTPPass := smtpPass; SMTPFrom := smtpFrom;
         SMTPCert := smtpCert; TICSecret := ticSecret; CSRFKey := csrfKey |}.

(** How a call of [InitSettings] ends: it returns nil with the settings
    filled, returns an error, or lets a panic through. *)
Inductive InitResult :=
| ReturnedNil (s : Settings)
| ReturnedErr (e : error)
| Panicked (e : error).

(** The deferred function: a recovered var-not-found error becomes the
    return value, any other panic is raised again. *)
Definition InitSettings (envVars : VarSet) : InitResult :=
  match InitSettings_body envVars with
  | Val s => ReturnedNil s
  | Return e => ReturnedErr e
  | Panic e => if IsVarNotFound e then ReturnedErr e else Panicked e
  end.

End InitSettings.

End Helpers.

(** ** Package controllers *)
Module Controllers.
Import Helpers.

(** [Context]: the receiver of every handler.  Its templates and mailer
    are used by handlers outside this development. *)
Record Context := mkContext {
  Settings_ : Settings
}.

Record pingData := mkPingData {
  Status : string;
  PingBuildInfo : string
}.

Definition pingDataStatusAlive : string := "alive".

Definition isSystemHealthy (p : pingData) : bool :=
  String.eqb (Status p) pingDataStatusAlive.

Definition createPingData (c : Context) : pingData :=
  mkPingData pingDataStatusAlive (BuildInfo (Settings_ c)).

(** The double quote and the backslash, as one-byte strings. *)
Definition dquote : string := String "034"%char EmptyString.
Definition backslash : string := String "092"%char EmptyString.

Section Handlers.

(** [err.Error()]: the message of an error is chosen by the package that
    builds it. *)
Variable Error : error -> string.

(** [json.Marshal], at type [pingData]. *)
Variable Marshal : pingData -> result string.

(** The OAuth client library and the provider behind it:
    [cfg.Exchange(ctx, code)], [cfg.TokenSource(ctx, t).Token()] and
    [cfg.AuthCodeURL(state, oauth2.AccessTypeOnline)]. *)
Variable Exchange : NetContext -> Config -> string -> result Token.
Variable TokenSourceToken : NetContext -> Config -> Token -> result Token.
Variable AuthCodeURL : Config -> string -> string.

(** [session.Save(req, rw)]: [None] is a nil error. *)
Variable Save : Session -> option error.

(** The clock. *)
Variable now : Time.

(** [toJSON]: the JSON bytes and [true], or a hand-made error text and
    [false]. *)
Definition toJSON (p : pingData) : string * bool :=
  match Marshal p with
  | Err err =>
      (dquote +:+ "status" +:+ dquote +:+ ": " +:+ dquote +:+ "error" +:+ dquote
         +:+ ": " +:+ dquote +:+ "data" +:+ dquote +:+ ": " +:+ dquote
         +:+ Error err +:+ dquote,
       false)
  | Ok pingBody => (pingBody, true)
  end.

Definition Ping (c : Context) : list Event :=
  let data := createPingData c in
  let '(dataJSON, conversionSuccess) := toJSON data in
  (if negb (isSystemHealthy data) || negb conversionSuccess
   then [WriteHeader StatusInternalServerError; Println dataJSON]
   else [])
  ++ [Write dataJSON].

(** Modelled from the spec: [helpers.GetValidToken] is declared in a file
    of package helpers that is not at hand.  By the spec it yields the
    token of a session "holding a token whose expiry is in the future" and
    nothing otherwise, and it neither writes the session nor contacts the
    provider. *)
Definition GetValidToken (req : Request) (settings : Settings) : option Token :=
  match assertToken (index (Values (RequestSession req)) "token") with
  | Some token => if now <? Expiry token then Some token else None
  | None => None
  end.

(** The private [redirect]: the error it returns and what it did. *)
Definition redirect (c : Context) (req : Request) : option error * Outcome :=
  let session := RequestSession req in
  match StateGenerator (Settings_ c) () with
  | Err err => (Some err, mkOutcome [CallStateGenerator] session)
  | Ok state =>
      let session := setValue "state" (VString state) session in
      match Save session with
      | Some err =>
          (Some err, mkOutcome [CallStateGenerator; SessionSave session] session)
      | None =>
          (None,
           mkOutcome [CallStateGenerator; SessionSave session;
                      Redirect (AuthCodeURL (OAuthConfig (Settings_ c)) state)
                               StatusFound]
                     session)
      end
  end.

Definition LoginHandshake (c : Context) (req : Request) : Outcome :=
  match GetValidToken req (Settings_ c) with
  | Some token =>
      let dashboardURL := AppURL (Settings_ c) +:+ "/#/dashboard" in
      mkOutcome [Redirect dashboardURL StatusFound] (RequestSession req)
  | None =>
      let '(err, out) := redirect c req in
      match err with
      | Some err =>
          mkOutcome
            (events out ++ [Println ("Error on oauth redirect: " +:+ " " +:+ Error err)])
            (session out)
      | None => out
      end
  end.

(** The configuration of the first exchange: the standard one with
    [?token_format=opaque] added to the token URL (and no [AuthURL]). *)
Definition tokenExchangeConfig (c : Context) : Config :=
  let cfg := OAuthConfig (Settings_ c) in
  mkConfig (ClientID cfg) (ClientSecret cfg)
    (mkEndpoint "" (TokenURL (ConfigEndpoint cfg) +:+ "?token_format=opaque"))
    (RedirectURL cfg) (Scopes cfg).

(** [token.AccessToken = ""; token.Expiry = time.Time{}] *)
Definition wipeAccessToken (token : Token) : Token :=
  mkToken "" (TokenType token) (RefreshToken token) zeroTime.

(** [token.RefreshToken = originalRefreshToken] *)
Definition setRefreshToken (originalRefreshToken : string) (token : Token) : Token :=
  mkToken (AccessToken token) (TokenType token) originalRefreshToken (Expiry token).

Definition OAuthCallback (c : Context) (req : Request) : Outcome :=
  let code := Get (Query req) "code" in
  let state := Get (Query req) "state" in
  let _ := if (String.length code <? 1)%nat then tt (* TODO: error. *) else tt in
  let session := RequestSession req in
  if String.eqb state "" || string_neq_interface state (index (Values session) "state")
  then mkOutcome [WriteHeader StatusUnauthorized] session
  else
    let ctx := CreateContext (Settings_ c) in
    match Exchange ctx (tokenExchangeConfig c) code with
    | Err err =>
        mkOutcome
          [CallExchange ctx (tokenExchangeConfig c) code;
           Println ("Unable to get access token from code " +:+ code
                      +:+ " error " +:+ Error err)]
          session
    | Ok token =>
        let originalRefreshToken := RefreshToken token in
        let token := wipeAccessToken token in
        match TokenSourceToken ctx (OAuthConfig (Settings_ c)) token with
        | Err err =>
            mkOutcome
              [CallExchange ctx (tokenExchangeConfig c) code;
               CallTokenSource ctx (OAuthConfig (Settings_ c)) token;
               Println ("Unable to get access token from code " +:+ code
                          +:+ " error " +:+ Error err)]
              session
        | Ok token' =>
            let token' := setRefreshToken originalRefreshToken token' in
            let session := setValue "token" (VToken token') session in
            let session := deleteValue "state" session in
            let dashboardURL := AppURL (Settings_ c) +:+ "/#/dashboard" in
            mkOutcome
              ([CallExchange ctx (tokenExchangeConfig c) code;
                CallTokenSource ctx (OAuthConfig (Settings_ c)) token;
                SessionSave session]
               ++ match Save session with
                  | Some err => [Println ("callback error: " +:+ Error err)]
                  | None => []
                  end
               ++ [Redirect dashboardURL StatusFound])
              session
        end
    end.

Definition Logout (c : Context) (req : Request) : Outcome :=
  let session := RequestSession req in
  let session := setValue "token" VNil session in
  let session := setMaxAge (-1) session in
  let logoutURL := LoginURL (Settings_ c) +:+ "/logout.do" in
  mkOutcome [SessionSave session; Redirect logoutURL StatusFound] session.

(** The cookies a handler sends: the cookie store sets one, with the
    options of the session, at every [Save] that succeeds. *)
Fixpoint cookiesSet (evs : list Event) : list Options :=
  match evs with
  | [] => []
  | SessionSave s :: rest =>
      match Save s with
      | None => SessionOptions s :: cookiesSet rest
      | Some _ => cookiesSet rest
      end
  | _ :: rest => cookiesSet rest
  end.

End Handlers.

(** *** encoding/json on [pingData] *)

Definition hexDigit (n : N) : ascii :=
  match n with
  | 0 => "0" | 1 => "1" | 2 => "2" | 3 => "3" | 4 => "4" | 5 => "5"
  | 6 => "6" | 7 => "7" | 8 => "8" | 9 => "9" | 10 => "a" | 11 => "b"
  | 12 => "c" | 13 => "d" | 14 => "e" | _ => "f"
  end%N%char.

(** One byte of a JSON string literal, as [json.Marshal] writes it (HTML
    escaping on): the quote and the backslash take a backslash, newline,
    carriage return and tab their short form, the other control bytes and
    [<], [>], [&] the form backslash, u00 and two hexadecimal digits; every
    other byte is copied.  This is the encoding of text that is valid
    UTF-8 without U+2028 and U+2029, under the Go releases that write
    backspace and form feed in the long form. *)
Definition jsonByte (b : ascii) : string :=
  let n := N_of_ascii b in
  if (n =? 34)%N then backslash +:+ dquote
  else if (n =? 92)%N then backslash +:+ backslash
  else if (n =? 10)%N then backslash +:+ "n"
  else if (n =? 13)%N then backslash +:+ "r"
  else if (n =? 9)%N then backslash +:+ "t"
  else if (n <? 32)%N || (n =? 60)%N || (n =? 62)%N || (n =? 38)%N
  then backslash +:+ "u00"
         +:+ String (hexDigit (n / 16)) (String (hexDigit (n mod 16)) EmptyString)
  else String b EmptyString.

Fixpoint jsonEscape (s : string) : string :=
  match s with
  | EmptyString => EmptyString
  | String b rest => jsonByte b +:+ jsonEscape rest
  end.

Definition jsonString (s : string) : string :=
  dquote +:+ jsonEscape s +:+ dquote.

(** [json.Marshal(p)]: the fields in declaration order under the names
    of their tags; marshaling two strings cannot fail. *)
Definition json_Marshal (p : pingData) : result string :=
  Ok ("{" +:+ jsonString "status" +:+ ":" +:+ jsonString (Status p) +:+ ","
         +:+ jsonString "build-info" +:+ ":" +:+ jsonString (PingBuildInfo p) +:+ "}").

End Controllers.

(** ** Package main: the start-up that loads an [env.VarSet] *)
Module Server.
Import Helpers.

Definition defaultPort : string := "9999".
Definition defaultUPSName : string := "dashboard-ups".
Definition envUPSNames : string := "UPS_NAMES".
Definition upsNamesEnvDelimiter : string := ":".

(** What the process does while it starts. *)
Inductive ProcEvent :=
| PrintLine (msg : string)                       (* fmt.Println *)
| Exit (code : Z)                                (* os.Exit *)
| Crash (e : error)                              (* a panic nobody recovers *)
| InitPProfRouter
| StartMonitoring (license : string)
| ListenAndServe (addr : string) (csrfKey : string) (secure : bool).

Definition isListen (e : ProcEvent) : bool :=
  match e with ListenAndServe _ _ _ => true | _ => false end.

Section StartApp.

(** [cfenv.App] and [web.Router]. *)
Variable App : Type.
Variable Router : Type.

Variable Error : error -> string.

(** The process environment ([os.Getenv]) and the lookups of package env:
    [env.WithOSLookup()] and [env.WithUPSLookup(app, name)]. *)
Variable Getenv : string -> string.
Variable osLookup : Lookup.
Variable upsLookup : App -> string -> Lookup.

(** [strings.Split] and [strings.TrimSpace]. *)
Variable Split : string -> string -> list string.
Variable TrimSpace : string -> string.

Variable GenerateRandomString : Z -> result string.
Variable hexDecodeString : string -> result string.
Variable NewCookieStore : string -> string -> CookieStore.

(** What [controllers.InitApp] does once the settings are loaded: the
    mailer, the templates and the router. *)
Variable initRouter : Settings -> result Router.

Definition makeDefaultEnvVarSet (app : option App) : VarSet :=
  match app with
  | Some a => [upsLookup a defaultUPSName]
  | None => []
  end ++ [osLookup].

Definition makeUPSEnvVarSet (app : App) (upsNames : string) : VarSet :=
  [osLookup]
  ++ omap (fun name =>
             let name := TrimSpace name in
             if negb (String.eqb name "") then Some (upsLookup app name) else None)
          (Split upsNames upsNamesEnvDelimiter).

(** The variable set [startApp] loads the settings from. *)
Definition chooseEnvVarSet (app : option App) : VarSet :=
  let upsNames := Getenv envUPSNames in
  match app with
  | Some a =>
      if negb (String.eqb upsNames "") then makeUPSEnvVarSet a upsNames
      else makeDefaultEnvVarSet app
  | None => makeDefaultEnvVarSet app
  end.

Inductive InitAppResult :=
| InitOk (router : Router) (settings : Settings)
| InitErr (err : error)
| InitPanic (e : error).

(** Modelled from the spec: [controllers.InitApp] is declared in a file
    of package controllers that is not at hand.  By the spec a
    configuration error is startup-fatal: [InitApp] loads the settings
    with [InitSettings] and hands its error to the caller; only with the
    settings loaded does it build the router. *)
Definition InitApp (envVars : VarSet) : InitAppResult :=
  match InitSettings GenerateRandomString hexDecodeString NewCookieStore envVars with
  | ReturnedErr err => InitErr err
  | Panicked e => InitPanic e
  | ReturnedNil settings =>
      match initRouter settings with
      | Ok router => InitOk router settings
      | Err err => InitErr err
      end
  end.

Definition startApp (port : string) (app : option App) : list ProcEvent :=
  let envVars := chooseEnvVarSet app in
  match InitApp envVars with
  | InitPanic e => [Crash e]
  | InitErr err => [PrintLine (Error err); Exit 1]
  | InitOk router settings =>
      (if PProfEnabled settings then [InitPProfRouter] else [])
      ++ (let nrLicense := String_ envVars NewRelicLicenseEnvVar "" in
          if negb (String.eqb nrLicense "")
          then [PrintLine "starting monitoring..."; StartMonitoring nrLicense]
          else [])
      ++ [PrintLine "starting app now...";
          ListenAndServe (":" +:+ port) (CSRFKey settings) (SecureCookies settings)]
  end.

End StartApp.

End Server.

(** ** Concrete settings, provider answers and requests *)
Module Sample.
Import Helpers Controllers.

Definition oauthConfig : Config :=
  mkConfig "dashboard" "secret"
    (mkEndpoint "https://login.example/oauth/authorize"
                "https://uaa.example/oauth/token")
    "https://dashboard.example/oauth2callback"
    ["cloud_controller.read"; "openid"].

Definition settings : Settings :=
  {| OAuthConfig := oauthConfig; ConsoleAPI := "https://api.example";
     LoginURL := "https://login.example";
     Sessions := mkCookieStore "auth" "enc" (mkOptions "/" 2592000 true true);
     StateGenerator := fun _ => Ok "nonce-1";
     UaaURL := "https://uaa.example"; LogURL := "https://log.example";
     TemplatesPath := "./templates";
     HighPrivilegedOauthConfig :=
       mkClientCredentialsConfig "dashboard" "secret"
         "https://uaa.example/oauth/token" ["scim.invite"];
     PProfEnabled := false; BuildInfo := "test-build-42";
     SecureCookies := true; LocalCF := false;
     AppURL := "https://dashboard.example"; SMTPHost := "smtp.example";
     SMTPPort := ""; SMTPUser := ""; SMTPPass := "";
     SMTPFrom := "noreply@example"; SMTPCert := ""; TICSecret := "";
     CSRFKey := "key" |}.

Definition context : Context := mkContext settings.

Definition errorText (e : error) : string :=
  match e with
  | errorString msg => msg
  | _ => "error"
  end.

Definition opaqueToken : Token := mkToken "opaque-access" "bearer" "opaque-refresh" 1000.
Definition jwtToken : Token := mkToken "jwt-access" "bearer" "jwt-refresh" 2000.

Definition exchangeOk (_ : NetContext) (_ : Config) (_ : string) : result Token :=
  Ok opaqueToken.
Definition exchangeFails (_ : NetContext) (_ : Config) (_ : string) : result Token :=
  Err (errorString "oauth2: cannot fetch token").
Definition refreshOk (_ : NetContext) (_ : Config) (_ : Token) : result Token :=
  Ok jwtToken.
Definition refreshFails (_ : NetContext) (_ : Config) (_ : Token) : result Token :=
  Err (errorString "oauth2: cannot fetch token").
(** What the oauth2 client makes of a provider answer without an access
    token. *)
Definition refreshMissingAccessToken
    (_ : NetContext) (_ : Config) (_ : Token) : result Token :=
  Err (errorString "oauth2: server response missing access_token").

Definition saveOk (_ : Session) : option error := None.

Definition authCodeURL (cfg : Config) (state : string) : string :=
  AuthURL (ConfigEndpoint cfg) +:+ "?state=" +:+ state.

Definition options : Options := mkOptions "/" 2592000 true true.

(** A session in the middle of a login round trip. *)
Definition pendingSession : Session :=
  mkSession {[ "state" := VString "nonce-1" ]} options.

(** A session that never started one. *)
Definition freshSession : Session := mkSession ∅ options.

(** A session holding a token that expires at second 5000. *)
Definition loggedInSession : Session :=
  mkSession {[ "token" := VToken (mkToken "jwt-access" "bearer" "opaque-refresh" 5000) ]}
            options.

Definition callbackRequest : Request :=
  mkRequest {[ "code" := ["abc"]; "state" := ["nonce-1"] ]} pendingSession.

Definition callbackWithoutCode : Request :=
  mkRequest {[ "state" := ["nonce-1"] ]} pendingSession.

Definition forgedCallback : Request :=
  mkRequest {[ "code" := ["abc"]; "state" := ["forged"] ]} pendingSession.

Definition loginRequest : Request := mkRequest ∅ loggedInSession.

(** The liveness payload of build test-build-42, byte for byte. *)
Definition alivePayload : string :=
  "{" +:+ dquote +:+ "status" +:+ dquote +:+ ":" +:+ dquote +:+ "alive" +:+ dquote
  +:+ "," +:+ dquote +:+ "build-info" +:+ dquote +:+ ":" +:+ dquote
  +:+ "test-build-42" +:+ dquote +:+ "}".

Definition marshalFails (_ : pingData) : result string :=
  Err (errorString "json: unsupported type").

(** A process environment with every mandatory variable set; the two
    cookie flags are left to the caller. *)
Definition environment (localCF secureCookies : string) : Lookup :=
  fun name =>
    match name with
    | HostnameEnvVar => Some "https://dashboard.example"
    | APIURLEnvVar => Some "https://api.example"
    | LoginURLEnvVar => Some "https://login.example"
    | UAAURLEnvVar => Some "https://uaa.example"
    | LogURLEnvVar => Some "https://log.example"
    | PProfEnabledEnvVar => Some "false"
    | LocalCFEnvVar => Some localCF
    | SecureCookiesEnvVar => Some secureCookies
    | ClientIDEnvVar => Some "dashboard"
    | ClientSecretEnvVar => Some "secret"
    | CSRFKeyEnvVar => Some "00ff"
    | SessionAuthenticationEnvVar => Some "0a0b"
    | SessionEncryptionEnvVar => Some "0c0d"
    | SMTPFromEnvVar => Some "noreply@example"
    | SMTPHostEnvVar => Some "smtp.example"
    | _ => None
    end.

Definition getenv (_ : string) : string := "".
Definition noUPS (_ : unit) (_ : string) : Lookup := fun _ => None.
Definition split (s : string) (_ : string) : list string := [s].
Definition trimSpace (s : string) : string := s.
Definition randomString (_ : Z) : result string := Ok "nonce-1".
Definition hexDecode (s : string) : result string := Ok s.
Definition newCookieStore (auth enc : string) : CookieStore :=
  mkCookieStore auth enc (mkOptions "/" 2592000 false false).
Definition routerOk (_ : Settings) : result unit := Ok tt.

End Sample.

(** ** Package main: the entry point *)
Module ServerMain.
Import Helpers Server.

Section Main.

Variable App : Type.
Variable Router : Type.
Variable Error : error -> string.
Variable Getenv : string -> string.
Variable osLookup : Lookup.
Variable upsLookup : App -> string -> Lookup.
Variable Split : string -> string -> list string.
Variable TrimSpace : string -> string.
Variable GenerateRandomString : Z -> result string.
Variable hexDecodeString : string -> result string.
Variable NewCookieStore : string -> string -> CookieStore.
Variable initRouter : Settings -> result Router.

(** [cfenv.Current()]: the application environment, nil outside Cloud
    Foundry, and an error. *)
Variable cfenvCurrent : option App * option error.

(** The port [main] serves on: the PORT variable, or the default port when
    it is empty. *)
Definition servingPort : string :=
  let port := Getenv "PORT" in
  if (String.length port =? 0)%nat then defaultPort else port.

Definition main : list ProcEvent :=
  let port := servingPort in
  let '(cfEnv, err) := cfenvCurrent in
  [PrintLine ("using port: " +:+ port)]
  ++ (if bool_decide (err ≠ None) || bool_decide (cfEnv = None)
      then [PrintLine "Warning: No Cloud Foundry Environment found"]
      else [])
  ++ startApp App Router Error Getenv osLookup upsLookup Split TrimSpace
       GenerateRandomString hexDecodeString NewCookieStore initRouter port cfEnv.

End Main.

End ServerMain.

(** ** How a computation of the loader can end *)
Module ExecLogic.
Import Helpers.

(** [ends P Q x]: when [x] leaves the function with [return err], [P err]
    holds, and when it panics with [err], [Q err] holds. *)
Definition ends {A : Type} (P Q : error -> Prop) (x : exec A) : Prop :=
  match x with
  | Val _ => True
  | Return e => P e
  | Panic e => Q e
  end.

End ExecLogic.

(** ** More requests, provider answers and environments *)
Module Cases.
Import Helpers Controllers.

Definition saveFails (_ : Session) : option error :=
  Some (errorString "securecookie: the value is too long").

(** [Sample.settings] with another state generator. *)
Definition settingsWith (generator : unit -> result string) : Settings :=
  {| OAuthConfig := OAuthConfig Sample.settings;
     ConsoleAPI := ConsoleAPI Sample.settings;
     LoginURL := LoginURL Sample.settings;
     Sessions := Sessions Sample.settings;
     StateGenerator := generator;
     UaaURL := UaaURL Sample.settings; LogURL := LogURL Sample.settings;
     TemplatesPath := TemplatesPath Sample.settings;
     HighPrivilegedOauthConfig := HighPrivilegedOauthConfig Sample.settings;
     PProfEnabled := PProfEnabled Sample.settings;
     BuildInfo := BuildInfo Sample.settings;
     SecureCookies := SecureCookies Sample.settings;
     LocalCF := LocalCF Sample.settings;
     AppURL := AppURL Sample.settings; SMTPHost := SMTPHost Sample.settings;
     SMTPPort := SMTPPort Sample.settings; SMTPUser := SMTPUser Sample.settings;
     SMTPPass := SMTPPass Sample.settings; SMTPFrom := SMTPFrom Sample.settings;
     SMTPCert := SMTPCert Sample.settings; TICSecret := TICSecret Sample.settings;
     CSRFKey := CSRFKey Sample.settings |}.

Definition generatorFails (_ : unit) : result string :=
  Err (errorString "crypto/rand: no entropy").

Definition contextWithoutEntropy : Context := mkContext (settingsWith generatorFails).

(** A request of a browser that has no session yet. *)
Definition firstVisit : Request := mkRequest ∅ Sample.freshSession.

(** A session with a pending login, a token and a value of another
    handler. *)
Definition busySession : Session :=
  mkSession {[ "state" := VString "nonce-1";
               "token" := VToken Sample.jwtToken;
               "visits" := VInt 3 ]}
            Sample.options.

Definition busyCallback : Request :=
  mkRequest {[ "code" := ["abc"]; "state" := ["nonce-1"] ]} busySession.

(** A hexadecimal decoder that rejects the text zz. *)
Definition hexDecodeStrict (s : string) : result string :=
  if String.eqb s "zz" then Err (InvalidByteError "z") else Ok s.

#[global] Instance EnvVarName_eq_dec : EqDecision EnvVarName.
Proof. solve_decision. Defined.

(** [Sample.environment] with secure cookies, one variable overridden. *)
Definition environmentWith (name : EnvVarName) (v : option string) : Lookup :=
  fun n =>
    if bool_decide (n = name) then v else Sample.environment "false" "true" n.

(** A user-provided service that binds the build string only. *)
Definition upsBuild (_ : unit) (service : string) : Lookup :=
  fun n =>
    match n with
    | BuildInfoEnvVar =>
        if String.eqb service "dashboard-ups" then Some "ups-build" else None
    | _ => None
    end.

Definition getenvPort (port : string) (name : string) : string :=
  if String.eqb name "PORT" then port else "".

(** What [Sample.environment] with secure cookies loads to. *)
Definition loadedSettings : Settings :=
  {| OAuthConfig :=
       mkConfig "dashboard" "secret"
         (mkEndpoint "https://login.example/oauth/authorize"
                     "https://uaa.example/oauth/token")
         "https://dashboard.example/oauth2callback"
         ["cloud_controller.read"; "cloud_controller.write";
          "cloud_controller.admin"; "scim.read"; "openid"];
     ConsoleAPI := "https://api.example";
     LoginURL := "https://login.example";
     Sessions := mkCookieStore "0a0b" "0c0d" (mkOptions "/" 2592000 true true);
     StateGenerator := fun _ => Sample.randomString 32;
     UaaURL := "https://uaa.example"; LogURL := "https://log.example";
     TemplatesPath := "./templates";
     HighPrivilegedOauthConfig :=
       mkClientCredentialsConfig "dashboard" "secret"
         "https://uaa.example/oauth/token"
         ["scim.invite"; "cloud_controller.admin"; "scim.read"];
     PProfEnabled := false; BuildInfo := "developer-build";
     SecureCookies := true; LocalCF := false;
     AppURL := "https://dashboard.example"; SMTPHost := "smtp.example";
     SMTPPort := ""; SMTPUser := ""; SMTPPass := "";
     SMTPFrom := "noreply@example"; SMTPCert := ""; TICSecret := "";
     CSRFKey := "00ff" |}.

End Cases.

(** * Properties of the handlers *)
Module ControllersSpec.
Import Helpers Controllers.

(** The state check of [OAuthCallback] lets a request through exactly when
    its [state] is not empty and the session stores that very string. *)
Lemma state_check_passes (state : string) (v : value) :
  String.eqb state "" || string_neq_interface state v = false
  ↔ state ≠ "" ∧ v = VString state.
Proof.
  rewrite orb_false_iff. split.
  - intros [Hempty Hneq]. split.
    + intros ->. discriminate.
    + destruct v as [| s' | t | n]; simpl in Hneq; try discriminate.
      apply negb_false_iff, String.eqb_eq in Hneq. by subst.
  - intros [Hne ->]. split.
    + by apply String.eqb_neq.
    + simpl. by rewrite String.eqb_refl.
Qed.

Lemma state_check_rejects (state : string) (v : value) :
  state = "" ∨ v ≠ VString state →
  String.eqb state "" || string_neq_interface state v = true.
Proof.
  intros H. apply not_false_iff_true. rewrite state_check_passes. tauto.
Qed.

Section Callback.

Variable Error : error -> string.
Variable Exchange : NetContext -> Config -> string -> result Token.
Variable TokenSourceToken : NetContext -> Config -> Token -> result Token.
Variable Save : Session -> option error.

Abbreviation callback := (OAuthCallback Error Exchange TokenSourceToken Save).

(** The two ways out of the state check. *)
Lemma callback_rejected (c : Context) (req : Request) :
  Get (Query req) "state" = ""
  ∨ index (Values (RequestSession req)) "state" ≠ VString (Get (Query req) "state") →
  callback c req = mkOutcome [WriteHeader StatusUnauthorized] (RequestSession req).
Proof.
  intros H. unfold OAuthCallback. by rewrite (state_check_rejects _ _ H).
Qed.

Lemma callback_accepted (c : Context) (req : Request) :
  Get (Query req) "state" ≠ "" →
  index (Values (RequestSession req)) "state" = VString (Get (Query req) "state") →
  String.eqb (Get (Query req) "state") ""
  || string_neq_interface (Get (Query req) "state")
       (index (Values (RequestSession req)) "state") = false.
Proof. intros H1 H2. apply state_check_passes. by split. Qed.

(** C1.  A callback whose [state] parameter is empty, or is not the state
    stored in the session (a session without stored state included), is
    answered with 401: the status is the only effect of the handler, the
    session is not saved and it is left exactly as it was, so no token is
    written into it. *)
Theorem callback_state_mismatch_is_unauthorized (c : Context) (req : Request) :
  Get (Query req) "state" = ""
  ∨ index (Values (RequestSession req)) "state" ≠ VString (Get (Query req) "state") →
  responseStatus (events (callback c req)) = 401
  ∧ events (callback c req) = [WriteHeader StatusUnauthorized]
  ∧ session (callback c req) = RequestSession req
  ∧ Values (session (callback c req)) !! "token" = Values (RequestSession req) !! "token".
Proof.
  intros H. rewrite (callback_rejected c req H). simpl. auto.
Qed.

(** A session with no stored state rejects every callback. *)
Lemma callback_without_stored_state (c : Context) (req : Request) :
  Values (RequestSession req) !! "state" = None →
  callback c req = mkOutcome [WriteHeader StatusUnauthorized] (RequestSession req).
Proof.
  intros Hnone. apply callback_rejected. right.
  unfold index. rewrite Hnone. simpl. discriminate.
Qed.

(** C3.  Every call to the provider that [OAuthCallback] makes, be it the
    exchange of the code or the refresh that follows it, happens in a
    request that passed the state check: the [state] parameter is not
    empty and is the state stored in the session. *)
Theorem callback_exchange_only_after_state_check (c : Context) (req : Request) (e : Event) :
  e ∈ events (callback c req) →
  isProviderCall e = true →
  Get (Query req) "state" ≠ ""
  ∧ index (Values (RequestSession req)) "state" = VString (Get (Query req) "state").
Proof.
  intros Hin Hcall. apply state_check_passes.
  destruct (String.eqb (Get (Query req) "state") ""
            || string_neq_interface (Get (Query req) "state")
                 (index (Values (RequestSession req)) "state")) eqn:Hcheck; [|done].
  unfold OAuthCallback in Hin. rewrite Hcheck in Hin. simpl in Hin.
  apply list_elem_of_singleton in Hin. subst e. discriminate.
Qed.

(** C10.  The [code] parameter is never validated: once the state check
    passes, the first thing the handler does is to exchange the code it
    read, whatever it is, and an absent or empty code is exchanged as the
    empty string. *)
Theorem callback_exchanges_any_code (c : Context) (req : Request) :
  Get (Query req) "state" ≠ "" →
  index (Values (RequestSession req)) "state" = VString (Get (Query req) "state") →
  ∃ rest,
    events (callback c req)
    = CallExchange (CreateContext (Settings_ c)) (tokenExchangeConfig c)
        (Get (Query req) "code") :: rest
  ∧ (Get (Query req) "code" = "" →
     events (callback c req)
     = CallExchange (CreateContext (Settings_ c)) (tokenExchangeConfig c) "" :: rest).
Proof.
  intros H1 H2. unfold OAuthCallback. rewrite (callback_accepted c req H1 H2).
  destruct (Exchange _ _ _) as [token | err].
  - destruct (TokenSourceToken _ _ _) as [token' | err].
    + eexists. split; [reflexivity | by intros ->].
    + eexists. split; [reflexivity | by intros ->].
  - eexists. split; [reflexivity | by intros ->].
Qed.

(** What a callback does when the state check passes and both exchanges
    succeed. *)
Lemma callback_success (c : Context) (req : Request) (token token' : Token) :
  Get (Query req) "state" ≠ "" →
  index (Values (RequestSession req)) "state" = VString (Get (Query req) "state") →
  Exchange (CreateContext (Settings_ c)) (tokenExchangeConfig c)
    (Get (Query req) "code") = Ok token →
  TokenSourceToken (CreateContext (Settings_ c)) (OAuthConfig (Settings_ c))
    (wipeAccessToken token) = Ok token' →
  let stored := setRefreshToken (RefreshToken token) token' in
  let saved := deleteValue "state" (setValue "token" (VToken stored) (RequestSession req)) in
  callback c req
  = mkOutcome
      ([CallExchange (CreateContext (Settings_ c)) (tokenExchangeConfig c)
          (Get (Query req) "code");
        CallTokenSource (CreateContext (Settings_ c)) (OAuthConfig (Settings_ c))
          (wipeAccessToken token);
        SessionSave saved]
       ++ match Save saved with
          | Some err => [Println ("callback error: " +:+ Error err)]
          | None => []
          end
       ++ [Redirect (AppURL (Settings_ c) +:+ "/#/dashboard") StatusFound])
      saved.
Proof.
  intros H1 H2 Hfirst Hsecond. unfold OAuthCallback.
  rewrite (callback_accepted c req H1 H2), Hfirst, Hsecond. reflexivity.
Qed.

Lemma stored_token_lookup (stored : Token) (s : Session) :
  Values (deleteValue "state" (setValue "token" (VToken stored) s)) !! "token"
  = Some (VToken stored).
Proof.
  simpl. rewrite lookup_delete_ne by discriminate. apply lookup_insert_eq.
Qed.

(** C2.  When both exchanges succeed, the token stored in the session (and
    handed to [Save]) carries the refresh token of the first, opaque
    exchange, whatever refresh token the second exchange returned. *)
Theorem callback_keeps_first_refresh_token
    (c : Context) (req : Request) (token token' : Token) :
  Get (Query req) "state" ≠ "" →
  index (Values (RequestSession req)) "state" = VString (Get (Query req) "state") →
  Exchange (CreateContext (Settings_ c)) (tokenExchangeConfig c)
    (Get (Query req) "code") = Ok token →
  TokenSourceToken (CreateContext (Settings_ c)) (OAuthConfig (Settings_ c))
    (wipeAccessToken token) = Ok token' →
  ∃ stored,
    Values (session (callback c req)) !! "token" = Some (VToken stored)
    ∧ RefreshToken stored = RefreshToken token
    ∧ SessionSave (session (callback c req)) ∈ events (callback c req).
Proof.
  intros H1 H2 Hfirst Hsecond.
  rewrite (callback_success c req token token' H1 H2 Hfirst Hsecond).
  exists (setRefreshToken (RefreshToken token) token'). cbn [session events].
  split; [apply stored_token_lookup|]. split; [reflexivity|].
  set_solver.
Qed.

(** C4.  When the first exchange fails, or the second one does, the
    handler emits no redirect and never saves the session, and the
    session is left exactly as the request brought it: no token, not even
    a partial one, is stored. *)
Theorem callback_exchange_failure_stores_nothing (c : Context) (req : Request) :
  (∃ err, Exchange (CreateContext (Settings_ c)) (tokenExchangeConfig c)
            (Get (Query req) "code") = Err err)
  ∨ (∃ token err,
       Exchange (CreateContext (Settings_ c)) (tokenExchangeConfig c)
         (Get (Query req) "code") = Ok token
       ∧ TokenSourceToken (CreateContext (Settings_ c)) (OAuthConfig (Settings_ c))
           (wipeAccessToken token) = Err err) →
  session (callback c req) = RequestSession req
  ∧ Values (session (callback c req)) !! "token" = Values (RequestSession req) !! "token"
  ∧ Forall (λ e, isRedirect e = false ∧ isSessionSave e = false)
           (events (callback c req)).
Proof.
  intros Hfail. unfold OAuthCallback.
  destruct (String.eqb _ _ || string_neq_interface _ _).
  - cbn. repeat split; auto.
  - destruct Hfail as [[err Hfirst] | (token & err & Hfirst & Hsecond)].
    + rewrite Hfirst. cbn. repeat split; auto.
    + rewrite Hfirst, Hsecond. cbn. repeat split; auto 6.
Qed.

(** C5.  When both exchanges succeed, the access token stored in the
    session is the one the second exchange returned, and it is not empty:
    the oauth2 client hands out no token without an access token (a
    provider answer that lacks one makes [Token()] fail with an error).
    It is never the opaque access token of the first exchange: the second
    exchange is called with the access token wiped, and two first
    exchanges that differ in the opaque access token (and its expiry)
    only leave the same session behind. *)
Theorem callback_access_token_from_second_exchange
    (c : Context) (req : Request) (token token' : Token) :
  (∀ ctx cfg t t', TokenSourceToken ctx cfg t = Ok t' → AccessToken t' ≠ "") →
  Get (Query req) "state" ≠ "" →
  index (Values (RequestSession req)) "state" = VString (Get (Query req) "state") →
  Exchange (CreateContext (Settings_ c)) (tokenExchangeConfig c)
    (Get (Query req) "code") = Ok token →
  TokenSourceToken (CreateContext (Settings_ c)) (OAuthConfig (Settings_ c))
    (wipeAccessToken token) = Ok token' →
  ∃ stored,
    Values (session (callback c req)) !! "token" = Some (VToken stored)
    ∧ AccessToken stored ≠ ""
    ∧ AccessToken stored = AccessToken token'
    ∧ CallTokenSource (CreateContext (Settings_ c)) (OAuthConfig (Settings_ c))
        (wipeAccessToken token) ∈ events (callback c req)
    ∧ AccessToken (wipeAccessToken token) = ""
    ∧ ∀ Exchange2 token2,
        Exchange2 (CreateContext (Settings_ c)) (tokenExchangeConfig c)
          (Get (Query req) "code") = Ok token2 →
        TokenType token2 = TokenType token →
        RefreshToken token2 = RefreshToken token →
        session (OAuthCallback Error Exchange2 TokenSourceToken Save c req)
        = session (callback c req).
Proof.
  intros Hlibrary H1 H2 Hfirst Hsecond.
  rewrite (callback_success c req token token' H1 H2 Hfirst Hsecond).
  exists (setRefreshToken (RefreshToken token) token'). cbn [session events].
  split; [apply stored_token_lookup|].
  split; [exact (Hlibrary _ _ _ _ Hsecond)|].
  split; [reflexivity|].
  split; [set_solver|]. split; [reflexivity|].
  intros Exchange2 token2 Hfirst2 Htype Hrefresh.
  assert (Hwipe : wipeAccessToken token2 = wipeAccessToken token).
  { unfold wipeAccessToken. by rewrite Htype, Hrefresh. }
  unfold OAuthCallback.
  rewrite (callback_accepted c req H1 H2), Hfirst2, Hwipe, Hsecond, Hrefresh.
  reflexivity.
Qed.

End Callback.

Section Login.

Variable Error : error -> string.
Variable AuthCodeURL : Config -> string -> string.
Variable Save : Session -> option error.
Variable now : Time.

Abbreviation login := (LoginHandshake Error AuthCodeURL Save now).

(** C6.  A login request whose session holds a token that expires in the
    future is redirected with 302 to the dashboard of the application
    and nothing else happens: no state is generated, the session is
    neither written nor saved, and the provider is not contacted. *)
Theorem login_with_valid_token_goes_to_dashboard
    (c : Context) (req : Request) (token : Token) :
  index (Values (RequestSession req)) "token" = VToken token →
  now < Expiry token →
  events (login c req) = [Redirect (AppURL (Settings_ c) +:+ "/#/dashboard") StatusFound]
  ∧ responseStatus (events (login c req)) = 302
  ∧ session (login c req) = RequestSession req
  ∧ Forall (λ e, isStateGeneration e = false ∧ isSessionSave e = false
                 ∧ isProviderCall e = false)
           (events (login c req)).
Proof.
  intros Htoken Hfresh. unfold LoginHandshake, GetValidToken.
  rewrite Htoken. cbn [assertToken].
  apply Z.ltb_lt in Hfresh. rewrite Hfresh. cbn.
  repeat split; auto.
Qed.

(** Without such a token the login starts a round trip: a state is
    generated first. *)
Lemma login_without_token_generates_state (c : Context) (req : Request) :
  GetValidToken now req (Settings_ c) = None →
  ∃ rest, events (login c req) = CallStateGenerator :: rest.
Proof.
  intros Hnone. unfold LoginHandshake, redirect. rewrite Hnone.
  destruct (StateGenerator _ _) as [state | err]; [|by eexists].
  destruct (Save _); by eexists.
Qed.

End Login.

Section LogoutAndPing.

Variable Error : error -> string.
Variable Save : Session -> option error.

(** C8.  Logout sets the token of the session to nil, so that the session
    no longer holds a token, sets the MaxAge of the session to -1, saves
    the session in that state and answers with a 302 redirect to the
    logout page of the login server.  Every cookie the save sets carries
    the negative MaxAge. *)
Theorem logout_clears_token_and_expires_session (c : Context) (req : Request) :
  Values (session (Logout c req)) !! "token" = Some VNil
  ∧ assertToken (index (Values (session (Logout c req))) "token") = None
  ∧ MaxAge (SessionOptions (session (Logout c req))) = -1
  ∧ MaxAge (SessionOptions (session (Logout c req))) < 0
  ∧ events (Logout c req)
    = [SessionSave (session (Logout c req));
       Redirect (LoginURL (Settings_ c) +:+ "/logout.do") StatusFound]
  ∧ responseStatus (events (Logout c req)) = 302
  ∧ cookiesSet Save (events (Logout c req))
    = match Save (session (Logout c req)) with
      | None => [SessionOptions (session (Logout c req))]
      | Some _ => []
      end
  ∧ Forall (λ o, MaxAge o < 0) (cookiesSet Save (events (Logout c req))).
Proof.
  unfold Logout. cbn [session events]. unfold index.
  assert (Hlookup :
    Values (setMaxAge (-1) (setValue "token" VNil (RequestSession req))) !! "token"
    = Some VNil) by (simpl; apply lookup_insert_eq).
  rewrite Hlookup. cbn [default assertToken cookiesSet].
  repeat split; try done.
  destruct (Save _); repeat constructor.
Qed.

(** The liveness payload is always healthy: its status is the constant
    the health test compares with. *)
Lemma ping_data_is_healthy (c : Context) : isSystemHealthy (createPingData c) = true.
Proof. reflexivity. Qed.

Lemma ping_events (Marshal : pingData → result string) (c : Context) :
  Ping Error Marshal c
  = match Marshal (createPingData c) with
    | Ok body => [Write body]
    | Err err =>
        [WriteHeader StatusInternalServerError;
         Println (fst (toJSON Error Marshal (createPingData c)));
         Write (fst (toJSON Error Marshal (createPingData c)))]
    end.
Proof.
  unfold Ping, toJSON. destruct (Marshal _); reflexivity.
Qed.

(** C9.  With the build string test-build-42 the health check answers 200
    with the body [Sample.alivePayload], the JSON object of the status
    alive and that build string.  Whatever the marshaler, the status is
    500 exactly when marshaling the payload fails. *)
Theorem ping_reports_alive_build (c : Context) :
  BuildInfo (Settings_ c) = "test-build-42" →
  responseStatus (Ping Error json_Marshal c) = 200
  ∧ responseBody (Ping Error json_Marshal c) = Sample.alivePayload
  ∧ Ping Error json_Marshal c = [Write Sample.alivePayload]
  ∧ ∀ (Marshal : pingData → result string) (c' : Context),
      responseStatus (Ping Error Marshal c') = 500
      ↔ ∃ err, Marshal (createPingData c') = Err err.
Proof.
  intros Hbuild.
  assert (Hping : Ping Error json_Marshal c = [Write Sample.alivePayload]).
  { rewrite ping_events. unfold json_Marshal, createPingData.
    cbn [Status PingBuildInfo]. rewrite Hbuild. reflexivity. }
  rewrite Hping. repeat split; try reflexivity.
  - rewrite ping_events. destruct (Marshal _) as [body | err]; [discriminate|].
    by exists err.
  - intros [err Herr]. rewrite ping_events, Herr. reflexivity.
Qed.

End LogoutAndPing.

End ControllersSpec.

(** * Properties of the settings loader and of the start-up *)
Module ServerSpec.
Import Helpers Server.

(** The guard stops the load for one combination of the flags only. *)
Lemma secureCookiesGuard_spec (localCF secureCookies : bool) :
  secureCookiesGuard localCF secureCookies
  = if negb localCF && negb secureCookies then Return insecureCookiesError else Val tt.
Proof. by destruct localCF, secureCookies. Qed.

(** A computation bound to a continuation ends with a value only when
    both do. *)
Lemma bind_Val_inv {A B : Type} (x : exec A) (k : A → exec B) (b : B) :
  x ≫= k = Val b → ∃ a, x = Val a ∧ k a = Val b.
Proof.
  destruct x as [a | e | e]; cbn; [|discriminate..]. intros H. by exists a.
Qed.

Section Start.

Variable App : Type.
Variable Router : Type.
Variable Error : error -> string.
Variable Getenv : string -> string.
Variable osLookup : Lookup.
Variable upsLookup : App -> string -> Lookup.
Variable Split : string -> string -> list string.
Variable TrimSpace : string -> string.
Variable GenerateRandomString : Z -> result string.
Variable hexDecodeString : string -> result string.
Variable NewCookieStore : string -> string -> CookieStore.
Variable initRouter : Settings -> result Router.

Abbreviation initSettings :=
  (InitSettings GenerateRandomString hexDecodeString NewCookieStore).
Abbreviation envVarsOf :=
  (chooseEnvVarSet App Getenv osLookup upsLookup Split TrimSpace).
Abbreviation start :=
  (startApp App Router Error Getenv osLookup upsLookup Split TrimSpace
     GenerateRandomString hexDecodeString NewCookieStore initRouter).

(** With both flags loaded as false the body of [InitSettings] never runs
    to its end, whatever else the environment holds. *)
Lemma InitSettings_body_insecure (envVars : VarSet) (s : Settings) :
  MustBool envVars LocalCFEnvVar = Val false →
  MustBool envVars SecureCookiesEnvVar = Val false →
  InitSettings_body GenerateRandomString hexDecodeString NewCookieStore envVars ≠ Val s.
Proof.
  intros Hlocal Hsecure Hbody. unfold InitSettings_body in Hbody.
  do 6 (apply bind_Val_inv in Hbody as (? & _ & Hbody)).
  apply bind_Val_inv in Hbody as (localCF & HlocalCF & Hbody).
  apply bind_Val_inv in Hbody as (secureCookies & HsecureCookies & Hbody).
  apply bind_Val_inv in Hbody as (? & Hguard & _).
  rewrite Hlocal in HlocalCF. rewrite Hsecure in HsecureCookies.
  injection HlocalCF as <-. injection HsecureCookies as <-.
  discriminate Hguard.
Qed.

Lemma InitSettings_insecure_not_nil (envVars : VarSet) (s : Settings) :
  MustBool envVars LocalCFEnvVar = Val false →
  MustBool envVars SecureCookiesEnvVar = Val false →
  initSettings envVars ≠ ReturnedNil s.
Proof.
  intros Hlocal Hsecure. unfold InitSettings.
  pose proof (InitSettings_body_insecure envVars) as Hbody.
  destruct (InitSettings_body _ _ _ _) as [s' | e | e].
  - exfalso. by eapply Hbody.
  - discriminate.
  - destruct (IsVarNotFound e); discriminate.
Qed.

(** Such a process never listens, also when some other variable is
    missing or malformed. *)
Lemma insecure_cookies_never_listen (port : string) (app : option App) :
  MustBool (envVarsOf app) LocalCFEnvVar = Val false →
  MustBool (envVarsOf app) SecureCookiesEnvVar = Val false →
  Forall (λ e, isListen e = false) (start port app).
Proof.
  intros Hlocal Hsecure. unfold startApp, InitApp.
  pose proof (InitSettings_insecure_not_nil (envVarsOf app)) as Hnil.
  destruct (InitSettings _ _ _ _) as [s | e | e].
  - exfalso. by eapply Hnil.
  - repeat constructor.
  - repeat constructor.
Qed.

(** C7.  When the load reaches the safe guard with LocalCF and
    SecureCookies both false, [InitSettings] returns the error whose text
    says that the service cannot run with insecure cookies against a
    production environment; [startApp] prints it and exits with status 1
    without ever listening.  For the three other combinations of the two
    flags the guard lets the load go on. *)
Theorem insecure_cookies_abort_startup
    (port : string) (app : option App)
    (appURL consoleAPI loginURL uaaURL logURL : string) (pprofEnabled : bool) :
  MustString (envVarsOf app) HostnameEnvVar = Val appURL →
  MustString (envVarsOf app) APIURLEnvVar = Val consoleAPI →
  MustString (envVarsOf app) LoginURLEnvVar = Val loginURL →
  MustString (envVarsOf app) UAAURLEnvVar = Val uaaURL →
  MustString (envVarsOf app) LogURLEnvVar = Val logURL →
  MustBool (envVarsOf app) PProfEnabledEnvVar = Val pprofEnabled →
  MustBool (envVarsOf app) LocalCFEnvVar = Val false →
  MustBool (envVarsOf app) SecureCookiesEnvVar = Val false →
  initSettings (envVarsOf app)
  = ReturnedErr
      (errorString
         "cannot run with insecure cookies when targeting a production CF environment")
  ∧ start port app = [PrintLine (Error insecureCookiesError); Exit 1]
  ∧ Forall (λ e, isListen e = false) (start port app)
  ∧ secureCookiesGuard false false = Return insecureCookiesError
  ∧ secureCookiesGuard false true = Val tt
  ∧ secureCookiesGuard true false = Val tt
  ∧ secureCookiesGuard true true = Val tt.
Proof.
  intros Happ Hapi Hlogin Huaa Hlog Hpprof Hlocal Hsecure.
  assert (Hinit : initSettings (envVarsOf app) = ReturnedErr insecureCookiesError).
  { unfold InitSettings, InitSettings_body.
    rewrite Happ, Hapi, Hlogin, Huaa, Hlog. cbn [mbind exec_bind].
    rewrite Hpprof. cbn [mbind exec_bind].
    rewrite Hlocal. cbn [mbind exec_bind].
    rewrite Hsecure. reflexivity. }
  split; [exact Hinit|].
  split; [unfold startApp, InitApp; by rewrite Hinit|].
  split; [by apply insecure_cookies_never_listen|].
  repeat split.
Qed.

End Start.

End ServerSpec.

(** * The theorems at concrete requests and environments *)
Module Instances.
Import Helpers Controllers Server.

Abbreviation callbackWith refresh :=
  (OAuthCallback Sample.errorText Sample.exchangeOk refresh Sample.saveOk).

(** A callback that answers a login of another session than the one it
    arrives with. *)
Lemma forged_callback_is_unauthorized :
  responseStatus (events (callbackWith Sample.refreshOk Sample.context Sample.forgedCallback))
  = 401
  ∧ session (callbackWith Sample.refreshOk Sample.context Sample.forgedCallback)
    = Sample.pendingSession.
Proof.
  destruct (ControllersSpec.callback_state_mismatch_is_unauthorized
              Sample.errorText Sample.exchangeOk Sample.refreshOk Sample.saveOk
              Sample.context Sample.forgedCallback) as (Hstatus & _ & Hsession & _).
  - right. vm_compute. discriminate.
  - split; [exact Hstatus | exact Hsession].
Defined.

(** A callback met by a session that never started a login. *)
Example callback_on_fresh_session_is_unauthorized :
  callbackWith Sample.refreshOk Sample.context
    (mkRequest {[ "code" := ["abc"]; "state" := ["nonce-1"] ]} Sample.freshSession)
  = mkOutcome [WriteHeader 401] Sample.freshSession.
Proof.
  apply ControllersSpec.callback_without_stored_state. reflexivity.
Qed.

Lemma good_callback_stores_opaque_refresh_token :
  ∃ stored,
    Values (session (callbackWith Sample.refreshOk Sample.context Sample.callbackRequest))
      !! "token" = Some (VToken stored)
    ∧ RefreshToken stored = "opaque-refresh".
Proof.
  destruct (ControllersSpec.callback_keeps_first_refresh_token
              Sample.errorText Sample.exchangeOk Sample.refreshOk Sample.saveOk
              Sample.context Sample.callbackRequest Sample.opaqueToken Sample.jwtToken)
    as (stored & Hstored & Hrefresh & _).
  - vm_compute. discriminate.
  - reflexivity.
  - reflexivity.
  - reflexivity.
  - exists stored. split; [exact Hstored | exact Hrefresh].
Defined.

Lemma good_callback_passed_state_check :
  Get (Query Sample.callbackRequest) "state" ≠ ""
  ∧ index (Values (RequestSession Sample.callbackRequest)) "state"
    = VString (Get (Query Sample.callbackRequest) "state").
Proof.
  apply (ControllersSpec.callback_exchange_only_after_state_check
           Sample.errorText Sample.exchangeOk Sample.refreshOk Sample.saveOk
           Sample.context Sample.callbackRequest
           (CallExchange (CreateContext Sample.settings)
              (tokenExchangeConfig Sample.context) "abc")).
  - vm_compute. apply list_elem_of_here.
  - reflexivity.
Defined.

Lemma failed_exchange_leaves_session :
  session (OAuthCallback Sample.errorText Sample.exchangeFails Sample.refreshOk
             Sample.saveOk Sample.context Sample.callbackRequest)
  = Sample.pendingSession.
Proof.
  apply (ControllersSpec.callback_exchange_failure_stores_nothing
           Sample.errorText Sample.exchangeFails Sample.refreshOk Sample.saveOk
           Sample.context Sample.callbackRequest).
  left. eexists. reflexivity.
Defined.

(** The same when the refresh that follows the exchange fails. *)
Example failed_refresh_leaves_session :
  OAuthCallback Sample.errorText Sample.exchangeOk Sample.refreshFails
    Sample.saveOk Sample.context Sample.callbackRequest
  = mkOutcome
      [CallExchange (mkNetContext false) (tokenExchangeConfig Sample.context) "abc";
       CallTokenSource (mkNetContext false) Sample.oauthConfig
         (mkToken "" "bearer" "opaque-refresh" 0);
       Println "Unable to get access token from code abc error oauth2: cannot fetch token"]
      Sample.pendingSession.
Proof. reflexivity. Qed.

Lemma good_callback_stores_jwt_access_token :
  ∃ stored,
    Values (session (callbackWith Sample.refreshOk Sample.context Sample.callbackRequest))
      !! "token" = Some (VToken stored)
    ∧ AccessToken stored ≠ ""
    ∧ AccessToken stored = "jwt-access".
Proof.
  destruct (ControllersSpec.callback_access_token_from_second_exchange
              Sample.errorText Sample.exchangeOk Sample.refreshOk Sample.saveOk
              Sample.context Sample.callbackRequest Sample.opaqueToken Sample.jwtToken)
    as (stored & Hstored & Hfilled & Haccess & _).
  - intros ctx cfg t t' Hok. injection Hok as <-. vm_compute. discriminate.
  - vm_compute. discriminate.
  - reflexivity.
  - reflexivity.
  - reflexivity.
  - exists stored. split; [exact Hstored|]. split; [exact Hfilled | exact Haccess].
Defined.

(** A provider answer without an access token reaches the handler as an
    error of the second exchange: nothing is stored. *)
Example missing_access_token_stores_nothing :
  OAuthCallback Sample.errorText Sample.exchangeOk Sample.refreshMissingAccessToken
    Sample.saveOk Sample.context Sample.callbackRequest
  = mkOutcome
      [CallExchange (mkNetContext false) (tokenExchangeConfig Sample.context) "abc";
       CallTokenSource (mkNetContext false) Sample.oauthConfig
         (mkToken "" "bearer" "opaque-refresh" 0);
       Println ("Unable to get access token from code abc error "
                  +:+ "oauth2: server response missing access_token")]
      Sample.pendingSession.
Proof. reflexivity. Qed.

Lemma callback_without_code_exchanges_empty_code :
  ∃ rest,
    events (callbackWith Sample.refreshOk Sample.context Sample.callbackWithoutCode)
    = CallExchange (mkNetContext false) (tokenExchangeConfig Sample.context) "" :: rest.
Proof.
  destruct (ControllersSpec.callback_exchanges_any_code
              Sample.errorText Sample.exchangeOk Sample.refreshOk Sample.saveOk
              Sample.context Sample.callbackWithoutCode) as (rest & Hevents & _).
  - vm_compute. discriminate.
  - reflexivity.
  - exists rest. exact Hevents.
Defined.

Lemma logged_in_login_goes_to_dashboard :
  events (LoginHandshake Sample.errorText Sample.authCodeURL Sample.saveOk 4000
            Sample.context Sample.loginRequest)
  = [Redirect "https://dashboard.example/#/dashboard" 302].
Proof.
  apply (ControllersSpec.login_with_valid_token_goes_to_dashboard
           Sample.errorText Sample.authCodeURL Sample.saveOk 4000
           Sample.context Sample.loginRequest
           (mkToken "jwt-access" "bearer" "opaque-refresh" 5000)).
  - reflexivity.
  - reflexivity.
Defined.

(** Once the token has expired the login starts a new round trip. *)
Example expired_login_starts_round_trip :
  events (LoginHandshake Sample.errorText Sample.authCodeURL Sample.saveOk 6000
            Sample.context Sample.loginRequest)
  = [CallStateGenerator;
     SessionSave (setValue "state" (VString "nonce-1") Sample.loggedInSession);
     Redirect "https://login.example/oauth/authorize?state=nonce-1" 302].
Proof. reflexivity. Qed.

Lemma ping_of_test_build :
  responseStatus (Ping Sample.errorText json_Marshal Sample.context) = 200
  ∧ responseBody (Ping Sample.errorText json_Marshal Sample.context)
    = Sample.alivePayload.
Proof.
  destruct (ControllersSpec.ping_reports_alive_build Sample.errorText Sample.context)
    as (Hstatus & Hbody & _).
  - reflexivity.
  - split; [exact Hstatus | exact Hbody].
Defined.

(** A marshaler that fails makes the health check answer 500. *)
Example ping_marshal_failure :
  responseStatus (Ping Sample.errorText Sample.marshalFails Sample.context) = 500.
Proof. reflexivity. Qed.

Abbreviation startWith lookup :=
  (startApp unit unit Sample.errorText Sample.getenv lookup Sample.noUPS
     Sample.split Sample.trimSpace Sample.randomString Sample.hexDecode
     Sample.newCookieStore Sample.routerOk).

Lemma insecure_production_start_exits :
  startWith (Sample.environment "false" "false") "9999" None
  = [PrintLine
       "cannot run with insecure cookies when targeting a production CF environment";
     Exit 1].
Proof.
  apply (ServerSpec.insecure_cookies_abort_startup unit unit Sample.errorText
           Sample.getenv (Sample.environment "false" "false") Sample.noUPS
           Sample.split Sample.trimSpace Sample.randomString Sample.hexDecode
           Sample.newCookieStore Sample.routerOk "9999" None
           "https://dashboard.example" "https://api.example" "https://login.example"
           "https://uaa.example" "https://log.example" false);
    reflexivity.
Defined.

(** The three other combinations of the flags start the server. *)
Example secure_production_start_listens :
  startWith (Sample.environment "false" "true") "9999" None
  = [PrintLine "starting app now..."; ListenAndServe ":9999" "00ff" true].
Proof. reflexivity. Qed.

Example insecure_local_start_listens :
  startWith (Sample.environment "true" "false") "9999" None
  = [PrintLine "starting app now..."; ListenAndServe ":9999" "00ff" false].
Proof. reflexivity. Qed.

Example secure_local_start_listens :
  startWith (Sample.environment "true" "true") "9999" None
  = [PrintLine "starting app now..."; ListenAndServe ":9999" "00ff" true].
Proof. reflexivity. Qed.

End Instances.

(** * Further properties of the handlers *)
Module ControllersExtra.
Import Helpers Controllers.

(** Membership in an explicit list of events, case by case: the cases
    that name another kind of event are closed. *)
Ltac elem_cases H :=
  repeat (apply elem_of_cons in H as [H | H]; [try discriminate H|]);
  try (by apply elem_of_nil in H).

Section Callback.

Variable Error : error -> string.
Variable Exchange : NetContext -> Config -> string -> result Token.
Variable TokenSourceToken : NetContext -> Config -> Token -> result Token.
Variable Save : Session -> option error.

Abbreviation handle := (OAuthCallback Error Exchange TokenSourceToken Save).
Abbreviation stateCheckFails req :=
  (String.eqb (Get (Query req) "state") ""
   || string_neq_interface (Get (Query req) "state")
        (index (Values (RequestSession req)) "state")).
Abbreviation firstExchange c req :=
  (Exchange (CreateContext (Settings_ c)) (tokenExchangeConfig c)
     (Get (Query req) "code")).
Abbreviation secondExchange c token :=
  (TokenSourceToken (CreateContext (Settings_ c)) (OAuthConfig (Settings_ c))
     (wipeAccessToken token)).
Abbreviation storedSession req token token' :=
  (deleteValue "state"
     (setValue "token" (VToken (setRefreshToken (RefreshToken token) token'))
        (RequestSession req))).

(** The status of the answer, by the path the handler takes. *)
Lemma callback_status (c : Context) (req : Request) :
  responseStatus (events (handle c req))
  = if stateCheckFails req then StatusUnauthorized
    else match firstExchange c req with
         | Err _ => StatusOK
         | Ok token =>
             match secondExchange c token with
             | Err _ => StatusOK
             | Ok _ => StatusFound
             end
         end.
Proof.
  unfold OAuthCallback. destruct (stateCheckFails req); [reflexivity|].
  destruct (firstExchange c req) as [token | err]; [|reflexivity].
  destruct (secondExchange c token) as [token' | err]; [|reflexivity].
  cbn [events app]. destruct (Save _); reflexivity.
Qed.

Lemma callback_stored (c : Context) (req : Request) (token token' : Token) :
  stateCheckFails req = false →
  firstExchange c req = Ok token →
  secondExchange c token = Ok token' →
  session (handle c req) = storedSession req token token'
  ∧ events (handle c req)
    = [CallExchange (CreateContext (Settings_ c)) (tokenExchangeConfig c)
         (Get (Query req) "code");
       CallTokenSource (CreateContext (Settings_ c)) (OAuthConfig (Settings_ c))
         (wipeAccessToken token);
       SessionSave (storedSession req token token')]
      ++ match Save (storedSession req token token') with
         | Some err => [Println ("callback error: " +:+ Error err)]
         | None => []
         end
      ++ [Redirect (AppURL (Settings_ c) +:+ "/#/dashboard") StatusFound].
Proof.
  intros Hcheck Hfirst Hsecond. unfold OAuthCallback.
  rewrite Hcheck, Hfirst, Hsecond. split; reflexivity.
Qed.

(** X1.  The three answers of the handler.  It answers with a redirect
    (302) exactly when the state check passes and both exchanges succeed,
    with 401 exactly when the state check fails, and with the implicit
    200 exactly when the state check passes and one of the exchanges
    fails; there is no other status. *)
Theorem callback_redirects_iff_both_exchanges_succeed (c : Context) (req : Request) :
  (responseStatus (events (handle c req)) = 302
   ↔ Get (Query req) "state" ≠ ""
     ∧ index (Values (RequestSession req)) "state" = VString (Get (Query req) "state")
     ∧ ∃ token token',
         firstExchange c req = Ok token ∧ secondExchange c token = Ok token')
  ∧ (responseStatus (events (handle c req)) = 401
     ↔ Get (Query req) "state" = ""
       ∨ index (Values (RequestSession req)) "state" ≠ VString (Get (Query req) "state"))
  ∧ (responseStatus (events (handle c req)) = 200
     ↔ Get (Query req) "state" ≠ ""
       ∧ index (Values (RequestSession req)) "state" = VString (Get (Query req) "state")
       ∧ ((∃ err, firstExchange c req = Err err)
          ∨ ∃ token err,
              firstExchange c req = Ok token ∧ secondExchange c token = Err err))
  ∧ (responseStatus (events (handle c req)) = 302
     ∨ responseStatus (events (handle c req)) = 401
     ∨ responseStatus (events (handle c req)) = 200).
Proof.
  rewrite callback_status.
  destruct (stateCheckFails req) eqn:Hcheck.
  - assert (Hrejected :
      Get (Query req) "state" = ""
      ∨ index (Values (RequestSession req)) "state" ≠ VString (Get (Query req) "state")).
    { destruct (decide (Get (Query req) "state" = "")) as [|Hne]; [by left|].
      right. intros Heq.
      rewrite (ControllersSpec.callback_accepted c req Hne Heq) in Hcheck.
      discriminate. }
    assert (Hnot : ¬ (Get (Query req) "state" ≠ ""
                      ∧ index (Values (RequestSession req)) "state"
                        = VString (Get (Query req) "state"))).
    { intros [H1 H2].
      rewrite (ControllersSpec.callback_accepted c req H1 H2) in Hcheck.
      discriminate. }
    split; [split; [discriminate | intros (H1 & H2 & _); destruct Hnot; by split]|].
    split; [done|].
    split; [split; [discriminate | intros (H1 & H2 & _); destruct Hnot; by split]|].
    right. by left.
  - apply ControllersSpec.state_check_passes in Hcheck as [H1 H2].
    assert (Haccepted :
      ¬ (Get (Query req) "state" = ""
         ∨ index (Values (RequestSession req)) "state"
           ≠ VString (Get (Query req) "state"))) by (intros [|]; done).
    destruct (firstExchange c req) as [token | err].
    + destruct (secondExchange c token) as [token' | err] eqn:Hsecond.
      * split; [split; [|done]; intros _; do 2 (split; [done|]); by exists token, token'|].
        split; [split; [discriminate | by intros ?]|].
        split; [|by left].
        split; [discriminate|].
        intros (_ & _ & [(e & He) | (t & e & Ht & He)]); [discriminate|].
        injection Ht as <-. rewrite Hsecond in He. discriminate.
      * split.
        { split; [discriminate|]. intros (_ & _ & t & t' & Ht & Ht').
          injection Ht as <-. rewrite Hsecond in Ht'. discriminate. }
        split; [split; [discriminate | by intros ?]|].
        split; [|by do 2 right].
        split; [|done]. intros _. do 2 (split; [done|]). right. by exists token, err.
    + split; [split; [discriminate | intros (_ & _ & t & t' & Ht & _); discriminate]|].
      split; [split; [discriminate | by intros ?]|].
      split; [|by do 2 right].
      split; [|done]. intros _. do 2 (split; [done|]). left. by exists err.
Qed.

(** X2.  When the state check passes and one of the exchanges fails, the
    browser gets an empty answer with status 200, and the only trace of
    the failure is one printed line that carries the code and the text of
    the error. *)
Theorem callback_exchange_failure_answers_blank (c : Context) (req : Request) (err : error) :
  Get (Query req) "state" ≠ "" →
  index (Values (RequestSession req)) "state" = VString (Get (Query req) "state") →
  firstExchange c req = Err err
  ∨ (∃ token, firstExchange c req = Ok token ∧ secondExchange c token = Err err) →
  responseStatus (events (handle c req)) = 200
  ∧ responseBody (events (handle c req)) = ""
  ∧ last (events (handle c req))
    = Some (Println ("Unable to get access token from code " +:+ Get (Query req) "code"
                       +:+ " error " +:+ Error err)).
Proof.
  intros H1 H2 Hfail. unfold OAuthCallback.
  rewrite (ControllersSpec.callback_accepted c req H1 H2).
  destruct Hfail as [Hfirst | (token & Hfirst & Hsecond)].
  - rewrite Hfirst. by cbn.
  - rewrite Hfirst, Hsecond. by cbn.
Qed.

(** X3.  The state is used once: after a callback that succeeded, the
    session has no stored state, and every further callback that comes
    with that session is answered with 401, whatever state it carries. *)
Theorem callback_state_is_single_use
    (c : Context) (req : Request) (token token' : Token) (req2 : Request) :
  Get (Query req) "state" ≠ "" →
  index (Values (RequestSession req)) "state" = VString (Get (Query req) "state") →
  firstExchange c req = Ok token →
  secondExchange c token = Ok token' →
  RequestSession req2 = session (handle c req) →
  Values (session (handle c req)) !! "state" = None
  ∧ handle c req2 = mkOutcome [WriteHeader StatusUnauthorized] (RequestSession req2).
Proof.
  intros H1 H2 Hfirst Hsecond Hsession.
  destruct (callback_stored c req token token'
              (ControllersSpec.callback_accepted c req H1 H2) Hfirst Hsecond)
    as [Hstored _].
  assert (Hnone : Values (session (handle c req)) !! "state" = None).
  { rewrite Hstored. cbn. apply lookup_delete_eq. }
  split; [exact Hnone|].
  apply ControllersSpec.callback_without_stored_state. by rewrite Hsession.
Qed.

(** X4.  A callback that succeeds touches the token and the state only:
    every other value of the session and the cookie options of the
    session are as the request brought them. *)
Theorem callback_keeps_other_values
    (c : Context) (req : Request) (token token' : Token) (k : string) :
  Get (Query req) "state" ≠ "" →
  index (Values (RequestSession req)) "state" = VString (Get (Query req) "state") →
  firstExchange c req = Ok token →
  secondExchange c token = Ok token' →
  k ≠ "token" → k ≠ "state" →
  Values (session (handle c req)) !! k = Values (RequestSession req) !! k
  ∧ SessionOptions (session (handle c req)) = SessionOptions (RequestSession req).
Proof.
  intros H1 H2 Hfirst Hsecond Htoken Hstate.
  destruct (callback_stored c req token token'
              (ControllersSpec.callback_accepted c req H1 H2) Hfirst Hsecond)
    as [-> _].
  split; [|reflexivity]. cbn.
  rewrite lookup_delete_ne by done. by rewrite lookup_insert_ne.
Qed.

(** X5.  A session that cannot be saved does not stop the handler: it
    prints the error and still redirects to the dashboard, although no
    cookie carrying the new token has been set. *)
Theorem callback_redirects_when_save_fails
    (c : Context) (req : Request) (token token' : Token) (err : error) :
  Get (Query req) "state" ≠ "" →
  index (Values (RequestSession req)) "state" = VString (Get (Query req) "state") →
  firstExchange c req = Ok token →
  secondExchange c token = Ok token' →
  Save (storedSession req token token') = Some err →
  responseStatus (events (handle c req)) = 302
  ∧ last (events (handle c req))
    = Some (Redirect (AppURL (Settings_ c) +:+ "/#/dashboard") StatusFound)
  ∧ Println ("callback error: " +:+ Error err) ∈ events (handle c req)
  ∧ cookiesSet Save (events (handle c req)) = [].
Proof.
  intros H1 H2 Hfirst Hsecond Hsave.
  destruct (callback_stored c req token token'
              (ControllersSpec.callback_accepted c req H1 H2) Hfirst Hsecond)
    as [_ ->].
  rewrite Hsave. cbn [app responseStatus last cookiesSet]. rewrite Hsave.
  repeat split; try reflexivity.
  do 3 apply list_elem_of_further. apply list_elem_of_here.
Qed.

(** X23.  How the provider is called.  Both calls skip the verification
    of certificates exactly when the settings target a local
    environment.  The exchange carries the code of the request and goes
    to the token URL of the standard configuration with the opaque token
    format asked for, under the same client, secret, redirect URL and
    scopes; the refresh uses the standard configuration itself and a
    token without access token and with the zero expiry. *)
Theorem callback_provider_calls (c : Context) (req : Request) (e : Event) :
  e ∈ events (handle c req) →
  match e with
  | CallExchange ctx cfg code =>
      InsecureSkipVerify ctx = LocalCF (Settings_ c)
      ∧ code = Get (Query req) "code"
      ∧ TokenURL (ConfigEndpoint cfg)
        = TokenURL (ConfigEndpoint (OAuthConfig (Settings_ c))) +:+ "?token_format=opaque"
      ∧ ClientID cfg = ClientID (OAuthConfig (Settings_ c))
      ∧ ClientSecret cfg = ClientSecret (OAuthConfig (Settings_ c))
      ∧ RedirectURL cfg = RedirectURL (OAuthConfig (Settings_ c))
      ∧ Scopes cfg = Scopes (OAuthConfig (Settings_ c))
  | CallTokenSource ctx cfg token =>
      InsecureSkipVerify ctx = LocalCF (Settings_ c)
      ∧ cfg = OAuthConfig (Settings_ c)
      ∧ AccessToken token = ""
      ∧ Expiry token = zeroTime
      ∧ ∃ first, firstExchange c req = Ok first
                 ∧ RefreshToken token = RefreshToken first
  | _ => True
  end.
Proof.
  assert (Hctx : InsecureSkipVerify (CreateContext (Settings_ c)) = LocalCF (Settings_ c)).
  { unfold CreateContext. by destruct (LocalCF (Settings_ c)). }
  unfold OAuthCallback. destruct (stateCheckFails req).
  { intros Hin. elem_cases Hin. by subst e. }
  destruct (firstExchange c req) as [first | err] eqn:Hfirst.
  - destruct (secondExchange c first) as [second | err].
    + cbn [events Datatypes.app]. intros Hin.
      apply elem_of_cons in Hin as [-> | Hin]; [by repeat split|].
      apply elem_of_cons in Hin as [-> | Hin]; [repeat split; try done; by exists first|].
      apply elem_of_cons in Hin as [-> | Hin]; [done|].
      destruct (Save _); elem_cases Hin; by subst e.
    + cbn [events]. intros Hin.
      apply elem_of_cons in Hin as [-> | Hin]; [by repeat split|].
      apply elem_of_cons in Hin as [-> | Hin]; [repeat split; try done; by exists first|].
      elem_cases Hin. by subst e.
  - cbn [events]. intros Hin.
    apply elem_of_cons in Hin as [-> | Hin]; [by repeat split|].
    elem_cases Hin. by subst e.
Qed.

End Callback.

Section Login.

Variable AuthCodeURL : Config -> string -> string.
Variable Save : Session -> option error.

Abbreviation startLogin := (redirect AuthCodeURL Save).

(** X6.  The browser is sent to the provider only with a state that the
    generator produced and that has been stored in the session and saved
    with it.  When the generator fails, [redirect] returns its error
    having touched neither the session nor the response; when the save
    fails, it returns the error of the save and emits no redirect.  It
    returns nil exactly when it redirects. *)
Theorem redirect_only_with_saved_state (c : Context) (req : Request) :
  (∀ url code,
     Redirect url code ∈ events (snd (startLogin c req)) →
     ∃ state,
       StateGenerator (Settings_ c) () = Ok state
       ∧ Save (setValue "state" (VString state) (RequestSession req)) = None
       ∧ url = AuthCodeURL (OAuthConfig (Settings_ c)) state
       ∧ code = 302
       ∧ Values (session (snd (startLogin c req))) !! "state" = Some (VString state)
       ∧ SessionSave (session (snd (startLogin c req))) ∈ events (snd (startLogin c req))
       ∧ fst (startLogin c req) = None)
  ∧ (∀ err,
       StateGenerator (Settings_ c) () = Err err →
       fst (startLogin c req) = Some err
       ∧ events (snd (startLogin c req)) = [CallStateGenerator]
       ∧ session (snd (startLogin c req)) = RequestSession req)
  ∧ (∀ state err,
       StateGenerator (Settings_ c) () = Ok state →
       Save (setValue "state" (VString state) (RequestSession req)) = Some err →
       fst (startLogin c req) = Some err
       ∧ Forall (λ e, isRedirect e = false) (events (snd (startLogin c req))))
  ∧ (fst (startLogin c req) = None
     ↔ ∃ url, Redirect url 302 ∈ events (snd (startLogin c req))).
Proof.
  unfold redirect.
  destruct (StateGenerator (Settings_ c) ()) as [state | err] eqn:Hgen.
  - destruct (Save _) as [err |] eqn:Hsave; cbn [snd fst events session].
    + split; [intros url code Hin; elem_cases Hin|].
      split; [intros err' [=]|].
      split.
      { intros state' err' [= <-] Hsave'. rewrite Hsave in Hsave'.
        injection Hsave' as <-. split; [done|]. repeat constructor. }
      split; [discriminate|]. intros [url Hin]. elem_cases Hin.
    + split.
      { intros url code Hin. elem_cases Hin.
        exists state. injection Hin as -> ->.
        repeat split; try done.
        - cbn. apply lookup_insert_eq.
        - apply list_elem_of_further, list_elem_of_here. }
      split; [intros err' [=]|].
      split.
      { intros state' err' [= <-] Hsave'. rewrite Hsave in Hsave'. discriminate. }
      split; [|done]. intros _. eexists.
      do 2 apply list_elem_of_further. apply list_elem_of_here.
  - cbn [snd fst events session].
    split; [intros url code Hin; elem_cases Hin|].
    split; [by intros err' [= <-]|].
    split; [intros state' err' [=]|].
    split; [discriminate|]. intros [url Hin]. elem_cases Hin.
Qed.

(** X7.  Login and callback fit together: on the session a login leaves
    behind, a callback is refused with 401 exactly when the state it
    carries is not the state the login sent to the provider. *)
Theorem login_state_opens_callback
    (c : Context) (req : Request) (state : string)
    (Error : error → string)
    (Exchange : NetContext → Config → string → result Token)
    (TokenSourceToken : NetContext → Config → Token → result Token)
    (c2 : Context) (req2 : Request) :
  StateGenerator (Settings_ c) () = Ok state →
  state ≠ "" →
  RequestSession req2 = session (snd (startLogin c req)) →
  responseStatus (events (OAuthCallback Error Exchange TokenSourceToken Save c2 req2)) = 401
  ↔ Get (Query req2) "state" ≠ state.
Proof.
  intros Hgen Hne Hsession.
  assert (Hstored : index (Values (RequestSession req2)) "state" = VString state).
  { rewrite Hsession. unfold redirect, index. rewrite Hgen.
    destruct (Save _); cbn; by rewrite lookup_insert_eq. }
  rewrite callback_status.
  destruct (String.eqb (Get (Query req2) "state") "" || _) eqn:Hcheck.
  - split; [|done]. intros _ Heq.
    apply not_false_iff_true in Hcheck. apply Hcheck.
    apply ControllersSpec.state_check_passes. rewrite Hstored, Heq. done.
  - apply ControllersSpec.state_check_passes in Hcheck as [_ Hcheck].
    rewrite Hstored in Hcheck. injection Hcheck as Hcheck.
    split.
    + destruct (Exchange _ _ _); [destruct (TokenSourceToken _ _ _)|]; discriminate.
    + intros Hneq. by destruct Hneq.
Qed.

End Login.

(** X8.  Logout touches the token and the MaxAge only: every other value
    of the session, a pending state included, and the other cookie
    options stay as they were. *)
Theorem logout_keeps_other_values (c : Context) (req : Request) (k : string) :
  k ≠ "token" →
  Values (session (Logout c req)) !! k = Values (RequestSession req) !! k
  ∧ Path (SessionOptions (session (Logout c req))) = Path (SessionOptions (RequestSession req))
  ∧ Secure (SessionOptions (session (Logout c req)))
    = Secure (SessionOptions (RequestSession req))
  ∧ HttpOnly (SessionOptions (session (Logout c req)))
    = HttpOnly (SessionOptions (RequestSession req)).
Proof.
  intros Hk. unfold Logout. cbn. by rewrite lookup_insert_ne.
Qed.

(** X9.  Logging out twice is logging out once: a second logout on the
    session the first one left gives the same session and the same
    answer. *)
Theorem logout_is_idempotent (c : Context) (req : Request) (q : gmap string (list string)) :
  Logout c (mkRequest q (session (Logout c req))) = Logout c req.
Proof.
  unfold Logout. cbn [RequestSession session].
  assert (Hsame :
    setMaxAge (-1) (setValue "token" VNil
      (setMaxAge (-1) (setValue "token" VNil (RequestSession req))))
    = setMaxAge (-1) (setValue "token" VNil (RequestSession req))).
  { unfold setMaxAge, setValue. cbn. by rewrite insert_insert_eq. }
  by rewrite Hsame.
Qed.

Lemma append_empty_r (s : string) : s +:+ "" = s.
Proof.
  induction s as [|b s IH]; [done|].
  change (String b (s +:+ "") = String b s). by rewrite IH.
Qed.

(** X24.  When marshaling the liveness payload fails, the health check
    sets the status 500 before it writes, and the body it sends is the
    very line it logs: the hand-made text that quotes the message of the
    error. *)
Theorem ping_failure_sends_logged_text
    (Error : error → string) (Marshal : pingData → result string)
    (c : Context) (err : error) :
  Marshal (createPingData c) = Err err →
  head (Ping Error Marshal c) = Some (WriteHeader 500)
  ∧ responseStatus (Ping Error Marshal c) = 500
  ∧ Println (responseBody (Ping Error Marshal c)) ∈ Ping Error Marshal c
  ∧ responseBody (Ping Error Marshal c)
    = dquote +:+ "status" +:+ dquote +:+ ": " +:+ dquote +:+ "error" +:+ dquote
        +:+ ": " +:+ dquote +:+ "data" +:+ dquote +:+ ": " +:+ dquote
        +:+ Error err +:+ dquote.
Proof.
  intros Hfail. rewrite ControllersSpec.ping_events. unfold toJSON. rewrite Hfail.
  cbn [fst head responseStatus responseBody]. rewrite append_empty_r.
  repeat split; try reflexivity.
  apply list_elem_of_further, list_elem_of_here.
Qed.

End ControllersExtra.

(** * Further properties of the settings loader *)
Module HelpersExtra.
Import Helpers ExecLogic.

Lemma MustString_Val (envVars : VarSet) (name : EnvVarName) (v : string) :
  MustString envVars name = Val v ↔ lookupVar envVars name = Some v.
Proof.
  unfold MustString. destruct (lookupVar envVars name); split; intros H;
    try discriminate; by injection H as ->.
Qed.

Lemma MustBool_Val (envVars : VarSet) (name : EnvVarName) (b : bool) :
  MustBool envVars name = Val b
  ↔ ∃ v, lookupVar envVars name = Some v ∧ ParseBool v = Ok b.
Proof.
  unfold MustBool, MustString.
  destruct (lookupVar envVars name) as [v|]; cbn.
  - destruct (ParseBool v) as [b' | e] eqn:Hparse; split.
    + intros H. injection H as <-. by exists v.
    + intros (v' & Hv & Hb). injection Hv as <-. rewrite Hparse in Hb.
      by injection Hb as ->.
    + discriminate.
    + intros (v' & Hv & Hb). injection Hv as <-. rewrite Hparse in Hb. discriminate.
  - split; [discriminate|]. intros (v & Hv & _). discriminate.
Qed.

Lemma orReturn_Val {A : Type} (r : result A) (wrap : error → error) (a : A) :
  orReturn r wrap = Val a ↔ r = Ok a.
Proof.
  destruct r; cbn; split; intros H; try discriminate; by injection H as ->.
Qed.

(** The rule of sequence for [ends]. *)
Lemma ends_bind {A B : Type} (P Q : error → Prop) (x : exec A) (k : A → exec B) :
  ends P Q x → (∀ a, x = Val a → ends P Q (k a)) → ends P Q (x ≫= k).
Proof.
  destruct x as [a | e | e]; cbn; intros Hx Hk; [by apply Hk | done | done].
Qed.

Section Loader.

Variable GenerateRandomString : Z -> result string.
Variable hexDecodeString : string -> result string.
Variable NewCookieStore : string -> string -> CookieStore.

Abbreviation load := (InitSettings GenerateRandomString hexDecodeString NewCookieStore).
Abbreviation body :=
  (InitSettings_body GenerateRandomString hexDecodeString NewCookieStore).

Lemma load_nil_body (envVars : VarSet) (s : Settings) :
  load envVars = ReturnedNil s → body envVars = Val s.
Proof.
  unfold InitSettings. destruct (body envVars) as [s' | e | e].
  - by intros [= ->].
  - discriminate.
  - destruct (IsVarNotFound e); discriminate.
Qed.

(** Takes a successful run of the body apart: one fact for every
    statement, and the settings as the last statement builds them. *)
Ltac invert_body H :=
  unfold InitSettings_body in H;
  repeat (apply ServerSpec.bind_Val_inv in H as (? & ? & H));
  injection H as <-;
  repeat match goal with
         | H' : MustString _ _ = Val _ |- _ => apply MustString_Val in H'
         | H' : MustBool _ _ = Val _ |- _ => apply MustBool_Val in H' as (? & ? & ?)
         | H' : orReturn _ _ = Val _ |- _ => apply orReturn_Val in H'
         end.

(** X10.  A load that succeeds never leaves a production target with
    insecure cookies: LocalCF or SecureCookies is set, and the cookie
    store is HttpOnly and carries the Secure flag of the settings, so its
    cookies are secure whenever the target is not local. *)
Theorem loaded_settings_have_safe_cookies (envVars : VarSet) (s : Settings) :
  load envVars = ReturnedNil s →
  LocalCF s || SecureCookies s = true
  ∧ Secure (StoreOptions (Sessions s)) = SecureCookies s
  ∧ HttpOnly (StoreOptions (Sessions s)) = true
  ∧ LocalCF s || Secure (StoreOptions (Sessions s)) = true.
Proof.
  intros Hload. apply load_nil_body in Hload. invert_body Hload. cbn.
  match goal with
  | Hguard : secureCookiesGuard ?l ?sc = Val _ |- _ =>
      destruct l, sc; try discriminate Hguard; auto
  end.
Qed.

(** X11.  The two OAuth configurations of a loaded [Settings] are derived
    from its URLs: the redirect URL is the callback path under the
    application URL, the authorization endpoint lives under the login URL
    and the token endpoint under the UAA URL, and the high privileged
    configuration uses the same client, secret and token endpoint. *)
Theorem loaded_settings_derive_endpoints (envVars : VarSet) (s : Settings) :
  load envVars = ReturnedNil s →
  RedirectURL (OAuthConfig s) = AppURL s +:+ "/oauth2callback"
  ∧ AuthURL (ConfigEndpoint (OAuthConfig s)) = LoginURL s +:+ "/oauth/authorize"
  ∧ TokenURL (ConfigEndpoint (OAuthConfig s)) = UaaURL s +:+ "/oauth/token"
  ∧ ccTokenURL (HighPrivilegedOauthConfig s) = TokenURL (ConfigEndpoint (OAuthConfig s))
  ∧ ccClientID (HighPrivilegedOauthConfig s) = ClientID (OAuthConfig s)
  ∧ ccClientSecret (HighPrivilegedOauthConfig s) = ClientSecret (OAuthConfig s).
Proof.
  intros Hload. apply load_nil_body in Hload. invert_body Hload. cbn.
  repeat split; congruence.
Qed.

(** X12.  A load that succeeds found every mandatory text variable: the
    settings hold the very values bound to the host name, the four URLs,
    the client and its secret and the SMTP sender and host; the three
    flags are the values [MustBool] yields for their variables; the CSRF
    key is the decoded value of its variable, and both session keys are
    bound and decode. *)
Theorem loaded_settings_come_from_variables (envVars : VarSet) (s : Settings) :
  load envVars = ReturnedNil s →
  lookupVar envVars HostnameEnvVar = Some (AppURL s)
  ∧ lookupVar envVars APIURLEnvVar = Some (ConsoleAPI s)
  ∧ lookupVar envVars LoginURLEnvVar = Some (LoginURL s)
  ∧ lookupVar envVars UAAURLEnvVar = Some (UaaURL s)
  ∧ lookupVar envVars LogURLEnvVar = Some (LogURL s)
  ∧ lookupVar envVars ClientIDEnvVar = Some (ClientID (OAuthConfig s))
  ∧ lookupVar envVars ClientSecretEnvVar = Some (ClientSecret (OAuthConfig s))
  ∧ lookupVar envVars SMTPFromEnvVar = Some (SMTPFrom s)
  ∧ lookupVar envVars SMTPHostEnvVar = Some (SMTPHost s)
  ∧ MustBool envVars PProfEnabledEnvVar = Val (PProfEnabled s)
  ∧ MustBool envVars LocalCFEnvVar = Val (LocalCF s)
  ∧ MustBool envVars SecureCookiesEnvVar = Val (SecureCookies s)
  ∧ (∃ v, lookupVar envVars CSRFKeyEnvVar = Some v ∧ hexDecodeString v = Ok (CSRFKey s))
  ∧ (∃ v key, lookupVar envVars SessionAuthenticationEnvVar = Some v
              ∧ hexDecodeString v = Ok key)
  ∧ (∃ v key, lookupVar envVars SessionEncryptionEnvVar = Some v
              ∧ hexDecodeString v = Ok key).
Proof.
  intros Hload. apply load_nil_body in Hload.
  unfold InitSettings_body in Hload.
  repeat (apply ServerSpec.bind_Val_inv in Hload as (? & ? & Hload)).
  injection Hload as <-.
  repeat match goal with
         | H' : MustString _ _ = Val _ |- _ => apply MustString_Val in H'
         | H' : orReturn _ _ = Val _ |- _ => apply orReturn_Val in H'
         end.
  cbn. repeat split; eauto.
Qed.

(** X13.  The optional variables fall back to their defaults: a loaded
    [Settings] has the templates path ./templates and the build string
    developer-build when their variables are unbound, and empty SMTP
    port, user, password, certificate and TIC secret. *)
Theorem loaded_settings_default_optionals (envVars : VarSet) (s : Settings) :
  load envVars = ReturnedNil s →
  TemplatesPath s = default "./templates" (lookupVar envVars TemplatesPathEnvVar)
  ∧ BuildInfo s = default "developer-build" (lookupVar envVars BuildInfoEnvVar)
  ∧ SMTPPass s = default "" (lookupVar envVars SMTPPassEnvVar)
  ∧ SMTPPort s = default "" (lookupVar envVars SMTPPortEnvVar)
  ∧ SMTPUser s = default "" (lookupVar envVars SMTPUserEnvVar)
  ∧ SMTPCert s = default "" (lookupVar envVars SMTPCertEnvVar)
  ∧ TICSecret s = default "" (lookupVar envVars TICSecretEnvVar).
Proof.
  intros Hload. apply load_nil_body in Hload. invert_body Hload. cbn.
  repeat split.
Qed.

(** The errors the body can return, and the errors it can panic
    with. *)
Lemma body_ends (envVars : VarSet) :
  ends
    (λ e,
       e = insecureCookiesError
       ∨ (∃ v cause,
            lookupVar envVars CSRFKeyEnvVar = Some v ∧ hexDecodeString v = Err cause
            ∧ e = Errorf_q_v "could not decode hex env var %q: %v" CSRFKeyEnvVar cause)
       ∨ (∃ v cause,
            lookupVar envVars SessionAuthenticationEnvVar = Some v
            ∧ hexDecodeString v = Err cause
            ∧ e = Errorf_q_v "could not decode hex env var %q: %v"
                    SessionAuthenticationEnvVar cause)
       ∨ (∃ v, lookupVar envVars SessionEncryptionEnvVar = Some v
               ∧ hexDecodeString v = Err e))
    (λ e,
       (∃ name, e = VarNotFound name ∧ lookupVar envVars name = None)
       ∨ (∃ name v,
            name ∈ [PProfEnabledEnvVar; LocalCFEnvVar; SecureCookiesEnvVar]
            ∧ lookupVar envVars name = Some v ∧ ParseBool v = Err e))
    (body envVars).
Proof.
  assert (Hstring : ∀ P name,
            ends P (λ e, (∃ name, e = VarNotFound name ∧ lookupVar envVars name = None)
                         ∨ (∃ name v,
                              name ∈ [PProfEnabledEnvVar; LocalCFEnvVar; SecureCookiesEnvVar]
                              ∧ lookupVar envVars name = Some v ∧ ParseBool v = Err e))
                 (MustString envVars name)).
  { intros P name. unfold MustString.
    destruct (lookupVar envVars name) eqn:Hname; cbn; [done|]. left. by exists name. }
  assert (Hbool : ∀ P name,
            name ∈ [PProfEnabledEnvVar; LocalCFEnvVar; SecureCookiesEnvVar] →
            ends P (λ e, (∃ name, e = VarNotFound name ∧ lookupVar envVars name = None)
                         ∨ (∃ name v,
                              name ∈ [PProfEnabledEnvVar; LocalCFEnvVar; SecureCookiesEnvVar]
                              ∧ lookupVar envVars name = Some v ∧ ParseBool v = Err e))
                 (MustBool envVars name)).
  { intros P name Hin. unfold MustBool, MustString.
    destruct (lookupVar envVars name) as [v|] eqn:Hname; cbn.
    - destruct (ParseBool v) as [b | e] eqn:Hparse; cbn; [done|].
      right. by exists name, v.
    - left. by exists name. }
  unfold InitSettings_body.
  do 5 (apply ends_bind; [apply Hstring | intros ? _]).
  apply ends_bind; [apply Hbool, list_elem_of_here | intros ? _].
  apply ends_bind; [apply Hbool, list_elem_of_further, list_elem_of_here | intros localCF _].
  apply ends_bind;
    [apply Hbool; do 2 apply list_elem_of_further; apply list_elem_of_here
    | intros secureCookies _].
  apply ends_bind.
  { unfold secureCookiesGuard.
    destruct (Bool.eqb localCF false && Bool.eqb secureCookies false); cbn; auto. }
  intros _ _.
  do 4 (apply ends_bind; [apply Hstring | intros ? _]).
  apply ends_bind; [apply Hstring | intros csrfHex Hcsrf].
  apply MustString_Val in Hcsrf.
  apply ends_bind.
  { destruct (hexDecodeString csrfHex) as [key | cause] eqn:Hhex; cbn; [done|].
    right. left. by exists csrfHex, cause. }
  intros ? _.
  apply ends_bind; [apply Hstring | intros authHex Hauth].
  apply MustString_Val in Hauth.
  apply ends_bind.
  { destruct (hexDecodeString authHex) as [key | cause] eqn:Hhex; cbn; [done|].
    right. right. left. by exists authHex, cause. }
  intros ? _.
  apply ends_bind; [apply Hstring | intros encHex Henc].
  apply MustString_Val in Henc.
  apply ends_bind.
  { destruct (hexDecodeString encHex) as [key | cause] eqn:Hhex; cbn; [done|].
    right. right. right. by exists encHex. }
  intros ? _.
  do 5 (apply ends_bind; [apply Hstring | intros ? _]).
  exact I.
Qed.

(** X14.  Every error [InitSettings] returns is of one of five kinds: a
    mandatory variable is unbound, and the error names it; the cookie
    flags are insecure for production; the CSRF key or the session
    authentication key is not hexadecimal, and the error names the
    variable and wraps the cause; or the session encryption key is not
    hexadecimal, and the error is the bare cause. *)
Theorem returned_errors_are_classified (envVars : VarSet) (e : error) :
  load envVars = ReturnedErr e →
  (∃ name, e = VarNotFound name ∧ lookupVar envVars name = None)
  ∨ e = insecureCookiesError
  ∨ (∃ v cause,
       lookupVar envVars CSRFKeyEnvVar = Some v ∧ hexDecodeString v = Err cause
       ∧ e = Errorf_q_v "could not decode hex env var %q: %v" CSRFKeyEnvVar cause)
  ∨ (∃ v cause,
       lookupVar envVars SessionAuthenticationEnvVar = Some v
       ∧ hexDecodeString v = Err cause
       ∧ e = Errorf_q_v "could not decode hex env var %q: %v"
               SessionAuthenticationEnvVar cause)
  ∨ (∃ v, lookupVar envVars SessionEncryptionEnvVar = Some v
          ∧ hexDecodeString v = Err e).
Proof.
  pose proof (body_ends envVars) as Hends. unfold InitSettings.
  destruct (body envVars) as [s | e' | e']; cbn in Hends.
  - discriminate.
  - intros [= ->]. by right.
  - destruct (IsVarNotFound e') eqn:Hfound; [|discriminate].
    intros [= ->]. destruct Hends as [Hends | (name & v & _ & _ & Hparse)].
    + by left.
    + unfold ParseBool in Hparse. repeat case_match; try discriminate.
      injection Hparse as <-. discriminate.
Qed.

(** X15.  The deferred recovery lets one kind of panic through only: a
    flag among PProfEnabled, LocalCF and SecureCookies that is bound to
    a text that is no boolean.  An unbound variable never makes
    [InitSettings] panic. *)
Theorem panics_come_from_malformed_flags (envVars : VarSet) (e : error) :
  load envVars = Panicked e →
  ∃ name v,
    name ∈ [PProfEnabledEnvVar; LocalCFEnvVar; SecureCookiesEnvVar]
    ∧ lookupVar envVars name = Some v
    ∧ ParseBool v = Err e
    ∧ e = ParseError v.
Proof.
  pose proof (body_ends envVars) as Hends. unfold InitSettings.
  destruct (body envVars) as [s | e' | e']; cbn in Hends; try discriminate.
  destruct (IsVarNotFound e') eqn:Hfound; [discriminate|].
  intros [= ->]. destruct Hends as [(name & -> & _) | (name & v & Hin & Hv & Hparse)].
  - discriminate.
  - exists name, v. repeat split; try done.
    unfold ParseBool in Hparse. repeat case_match; try discriminate.
    by injection Hparse as <-.
Qed.

(** X16.  What suffices for a load to succeed: every mandatory text
    variable is bound, the three flags are bound to booleans that are not
    both false for LocalCF and SecureCookies, and the three keys decode
    as hexadecimal. *)
Theorem load_succeeds_on_complete_environment
    (envVars : VarSet) (pprofEnabled localCF secureCookies : bool) :
  Forall (λ name, is_Some (lookupVar envVars name))
    [HostnameEnvVar; APIURLEnvVar; LoginURLEnvVar; UAAURLEnvVar; LogURLEnvVar;
     ClientIDEnvVar; ClientSecretEnvVar; SMTPFromEnvVar; SMTPHostEnvVar] →
  MustBool envVars PProfEnabledEnvVar = Val pprofEnabled →
  MustBool envVars LocalCFEnvVar = Val localCF →
  MustBool envVars SecureCookiesEnvVar = Val secureCookies →
  localCF || secureCookies = true →
  Forall (λ name, ∃ v key, lookupVar envVars name = Some v ∧ hexDecodeString v = Ok key)
    [CSRFKeyEnvVar; SessionAuthenticationEnvVar; SessionEncryptionEnvVar] →
  ∃ s, load envVars = ReturnedNil s
       ∧ PProfEnabled s = pprofEnabled
       ∧ LocalCF s = localCF
       ∧ SecureCookies s = secureCookies.
Proof.
  intros Htexts Hpprof Hlocal Hsecure Hflags Hkeys.
  repeat (apply Forall_cons in Htexts as [[? ?] Htexts]).
  repeat (apply Forall_cons in Hkeys as [(? & ? & ? & ?) Hkeys]).
  repeat match goal with
         | H : lookupVar envVars _ = Some _ |- _ => apply MustString_Val in H
         end.
  unfold InitSettings, InitSettings_body.
  repeat match goal with
         | H : MustString envVars _ = Val _ |- _ => rewrite H; clear H
         end.
  cbn [mbind exec_bind]. rewrite Hpprof. cbn [mbind exec_bind].
  rewrite Hlocal. cbn [mbind exec_bind]. rewrite Hsecure. cbn [mbind exec_bind].
  assert (Hguard : secureCookiesGuard localCF secureCookies = Val tt).
  { destruct localCF, secureCookies; done. }
  rewrite Hguard. cbn [mbind exec_bind].
  repeat match goal with
         | H : hexDecodeString _ = Ok _ |- _ => rewrite H; clear H
         end.
  cbn. eexists. repeat split.
Qed.

(** The flags of a loaded [Settings], as the start-up needs them. *)
Lemma loaded_flags (envVars : VarSet) (s : Settings) :
  load envVars = ReturnedNil s →
  LocalCF s || SecureCookies s = true
  ∧ ∃ v, lookupVar envVars LocalCFEnvVar = Some v ∧ ParseBool v = Ok (LocalCF s).
Proof.
  intros Hload. apply load_nil_body in Hload. invert_body Hload. cbn.
  split; [|eauto].
  match goal with
  | Hguard : secureCookiesGuard ?l ?sc = Val _ |- _ =>
      destruct l, sc; try discriminate Hguard; auto
  end.
Qed.

End Loader.

End HelpersExtra.

(** * Further properties of the start-up *)
Module ServerExtra.
Import Helpers Server ServerMain.

(** A lookup list that starts with a lookup binding the name finds that
    binding; otherwise it goes on with the rest. *)
Lemma lookupVar_cons (l : Lookup) (rest : VarSet) (name : EnvVarName) :
  lookupVar (l :: rest) name
  = match l name with
    | Some v => Some v
    | None => lookupVar rest name
    end.
Proof. reflexivity. Qed.

Section Start.

Variable App : Type.
Variable Router : Type.
Variable Error : error -> string.
Variable Getenv : string -> string.
Variable osLookup : Lookup.
Variable upsLookup : App -> string -> Lookup.
Variable Split : string -> string -> list string.
Variable TrimSpace : string -> string.
Variable GenerateRandomString : Z -> result string.
Variable hexDecodeString : string -> result string.
Variable NewCookieStore : string -> string -> CookieStore.
Variable initRouter : Settings -> result Router.
Variable cfenvCurrent : option App * option error.

Abbreviation defaultSet := (makeDefaultEnvVarSet App osLookup upsLookup).
Abbreviation upsSet := (makeUPSEnvVarSet App osLookup upsLookup Split TrimSpace).
Abbreviation chosenSet := (chooseEnvVarSet App Getenv osLookup upsLookup Split TrimSpace).
Abbreviation initApp :=
  (InitApp Router GenerateRandomString hexDecodeString NewCookieStore initRouter).
Abbreviation start :=
  (startApp App Router Error Getenv osLookup upsLookup Split TrimSpace
     GenerateRandomString hexDecodeString NewCookieStore initRouter).
Abbreviation run :=
  (main App Router Error Getenv osLookup upsLookup Split TrimSpace
     GenerateRandomString hexDecodeString NewCookieStore initRouter cfenvCurrent).

(** X17.  In the default variable set the user-provided service named
    dashboard-ups comes first: its binding of a variable hides the one of
    the process environment, which is consulted for the variables the
    service leaves unbound, and alone when there is no application
    environment. *)
Theorem default_set_prefers_service (app : option App) (name : EnvVarName) :
  lookupVar (defaultSet app) name
  = match app with
    | Some a =>
        match upsLookup a "dashboard-ups" name with
        | Some v => Some v
        | None => osLookup name
        end
    | None => osLookup name
    end.
Proof.
  unfold makeDefaultEnvVarSet, defaultUPSName.
  destruct app as [a|]; cbn [Datatypes.app]; rewrite !lookupVar_cons.
  - destruct (upsLookup a "dashboard-ups" name); [done|]. by destruct (osLookup name).
  - by destruct (osLookup name).
Qed.

(** The lookups of the services named in a list, in the order of the
    list, blank names left out. *)
Lemma services_lookup (a : App) (names : list string) (name : EnvVarName) (v : string) :
  lookupVar
    (omap (λ raw, if negb (String.eqb (TrimSpace raw) "")
                  then Some (upsLookup a (TrimSpace raw)) else None) names) name
  = Some v →
  ∃ raw, raw ∈ names ∧ TrimSpace raw ≠ "" ∧ upsLookup a (TrimSpace raw) name = Some v.
Proof.
  induction names as [|raw names IH]; cbn; [discriminate|].
  destruct (String.eqb (TrimSpace raw) "") eqn:Hblank; cbn.
  - intros H. destruct (IH H) as (raw' & Hin & Hne & Hv).
    exists raw'. split; [by apply list_elem_of_further | done].
  - destruct (upsLookup a (TrimSpace raw) name) as [v'|] eqn:Hv.
    + intros [= ->]. exists raw. split; [apply list_elem_of_here|].
      split; [by apply String.eqb_neq | done].
    + intros H. destruct (IH H) as (raw' & Hin & Hne & Hv').
      exists raw'. split; [by apply list_elem_of_further | done].
Qed.

(** X18.  In the variable set built from a list of service names the
    order is the other way round: a binding of the process environment
    hides the services, and a value that is found without it comes from a
    service whose trimmed name is not empty and stands in the list. *)
Theorem ups_set_prefers_process_environment
    (a : App) (upsNames : string) (name : EnvVarName) (v : string) :
  lookupVar (upsSet a upsNames) name = Some v →
  osLookup name = Some v
  ∨ (osLookup name = None
     ∧ ∃ raw, raw ∈ Split upsNames ":" ∧ TrimSpace raw ≠ ""
              ∧ upsLookup a (TrimSpace raw) name = Some v).
Proof.
  unfold makeUPSEnvVarSet. cbn [Datatypes.app]. rewrite lookupVar_cons.
  destruct (osLookup name) as [v'|]; [by left|].
  intros H. right. split; [done|]. by apply services_lookup.
Qed.

(** X19.  Whatever variable set [startApp] chooses, the process
    environment is part of it: a variable bound there is always found,
    and without an application environment it is found with that very
    value, whatever UPS_NAMES holds. *)
Theorem chosen_set_consults_process_environment
    (app : option App) (name : EnvVarName) (v : string) :
  osLookup name = Some v →
  is_Some (lookupVar (chosenSet app) name)
  ∧ lookupVar (chosenSet None) name = Some v.
Proof.
  intros Hos. split.
  - unfold chooseEnvVarSet. destruct app as [a|].
    + destruct (negb (String.eqb (Getenv envUPSNames) "")).
      * unfold makeUPSEnvVarSet. cbn [Datatypes.app]. rewrite lookupVar_cons, Hos. by eexists.
      * unfold makeDefaultEnvVarSet. cbn [Datatypes.app]. rewrite lookupVar_cons.
        destruct (upsLookup a _ name); [by eexists|].
        rewrite lookupVar_cons, Hos. by eexists.
    + unfold makeDefaultEnvVarSet. cbn [Datatypes.app]. rewrite lookupVar_cons, Hos. by eexists.
  - unfold chooseEnvVarSet, makeDefaultEnvVarSet. cbn [Datatypes.app].
    by rewrite lookupVar_cons, Hos.
Qed.

(** Where a listening process comes from: the application was
    initialised, and the trace ends with the announcement and the
    listening, after events that are no exit. *)
Lemma listen_inv (port : string) (app : option App)
    (addr key : string) (secure : bool) :
  ListenAndServe addr key secure ∈ start port app →
  ∃ router settings before,
    initApp (chosenSet app) = InitOk Router router settings
    ∧ start port app
      = before ++ [PrintLine "starting app now...";
                   ListenAndServe (":" +:+ port) (CSRFKey settings)
                     (SecureCookies settings)]
    ∧ Forall (λ e, e ≠ Exit 1) before
    ∧ addr = ":" +:+ port ∧ key = CSRFKey settings ∧ secure = SecureCookies settings.
Proof.
  unfold startApp.
  destruct (initApp (chosenSet app)) as [router settings | err | e];
    [| intros Hin; ControllersExtra.elem_cases Hin..].
  intros Hin. exists router, settings. eexists. split; [done|].
  rewrite app_assoc. split; [reflexivity|].
  destruct (PProfEnabled settings),
    (negb (String.eqb (String_ (chosenSet app) NewRelicLicenseEnvVar "") ""));
    cbn [Datatypes.app] in *; ControllersExtra.elem_cases Hin;
    injection Hin as -> -> ->; repeat split; repeat constructor; discriminate.
Qed.

(** X20.  When [startApp] listens, the application was initialised
    without error, listening is the last thing the process does and it
    never exits before; it listens on the port it was given, and the CSRF
    protection gets the key and the Secure flag of the loaded
    settings. *)
Theorem start_listens_last_with_loaded_settings
    (port : string) (app : option App) (addr key : string) (secure : bool) :
  ListenAndServe addr key secure ∈ start port app →
  ∃ router settings,
    initApp (chosenSet app) = InitOk Router router settings
    ∧ addr = ":" +:+ port ∧ key = CSRFKey settings ∧ secure = SecureCookies settings
    ∧ last (start port app) = Some (ListenAndServe addr key secure)
    ∧ Forall (λ e, e ≠ Exit 1) (start port app).
Proof.
  intros Hin.
  destruct (listen_inv port app addr key secure Hin)
    as (router & settings & before & Hinit & Htrace & Hbefore & -> & -> & ->).
  exists router, settings. rewrite Htrace.
  repeat split; try done.
  - rewrite last_app. reflexivity.
  - apply Forall_app. split; [done|]. repeat constructor; discriminate.
Qed.

(** X21.  A process that listens with CSRF cookies that are not secure
    targets a local environment: either the Secure flag handed to the
    CSRF protection is set, or the LocalCF variable is bound to a text
    that parses as true. *)
Theorem start_never_serves_insecure_production
    (port : string) (app : option App) (addr key : string) (secure : bool) :
  ListenAndServe addr key secure ∈ start port app →
  secure = true
  ∨ ∃ v, lookupVar (chosenSet app) LocalCFEnvVar = Some v ∧ ParseBool v = Ok true.
Proof.
  intros Hin.
  destruct (listen_inv port app addr key secure Hin)
    as (router & settings & _ & Hinit & _ & _ & _ & _ & ->).
  unfold InitApp in Hinit.
  destruct (InitSettings _ _ _ _) as [s | err | e] eqn:Hload; try discriminate.
  destruct (initRouter s); try discriminate. injection Hinit as _ <-.
  destruct (HelpersExtra.loaded_flags _ _ _ _ _ Hload) as [Hflags (v & Hv & Hparse)].
  destruct (SecureCookies s); [by left|]. right.
  rewrite orb_false_r in Hflags. rewrite Hflags in Hparse. by exists v.
Qed.

(** X22.  [main] serves on the port named by the PORT variable and on
    port 9999 when that variable is empty, and the first thing it prints
    is that port. *)
Theorem main_serves_on_configured_port (addr key : string) (secure : bool) :
  ListenAndServe addr key secure ∈ run →
  addr = ":" +:+ servingPort Getenv
  ∧ servingPort Getenv
    = (if String.eqb (Getenv "PORT") "" then "9999" else Getenv "PORT")
  ∧ head run = Some (PrintLine ("using port: " +:+ servingPort Getenv)).
Proof.
  intros Hin. split; [|split].
  - unfold main in Hin. destruct cfenvCurrent as [cfEnv err].
    cbn [Datatypes.app] in Hin.
    apply elem_of_cons in Hin as [Hin | Hin]; [discriminate|].
    apply elem_of_app in Hin as [Hin | Hin].
    + destruct (bool_decide _ || bool_decide _); ControllersExtra.elem_cases Hin.
    + by destruct (listen_inv _ _ _ _ _ Hin) as (_ & _ & _ & _ & _ & _ & -> & _).
  - unfold servingPort. by destruct (Getenv "PORT").
  - unfold main. by destruct cfenvCurrent.
Qed.

End Start.

End ServerExtra.

(** * The further properties at concrete requests and environments *)
Module MoreInstances.
Import Helpers Controllers Server ServerMain.

Abbreviation okCallback :=
  (OAuthCallback Sample.errorText Sample.exchangeOk Sample.refreshOk Sample.saveOk
     Sample.context).

Lemma failed_exchange_answers_blank :
  responseStatus
    (events (OAuthCallback Sample.errorText Sample.exchangeFails Sample.refreshOk
               Sample.saveOk Sample.context Sample.callbackRequest)) = 200
  ∧ responseBody
      (events (OAuthCallback Sample.errorText Sample.exchangeFails Sample.refreshOk
                 Sample.saveOk Sample.context Sample.callbackRequest)) = "".
Proof.
  destruct (ControllersExtra.callback_exchange_failure_answers_blank
              Sample.errorText Sample.exchangeFails Sample.refreshOk Sample.saveOk
              Sample.context Sample.callbackRequest
              (errorString "oauth2: cannot fetch token"))
    as (Hstatus & Hbody & _).
  - vm_compute. discriminate.
  - reflexivity.
  - left. reflexivity.
  - split; [exact Hstatus | exact Hbody].
Defined.

Lemma replayed_callback_is_unauthorized :
  okCallback (mkRequest {[ "code" := ["abc"]; "state" := ["nonce-1"] ]}
                (session (okCallback Sample.callbackRequest)))
  = mkOutcome [WriteHeader StatusUnauthorized]
      (session (okCallback Sample.callbackRequest)).
Proof.
  apply (ControllersExtra.callback_state_is_single_use
           Sample.errorText Sample.exchangeOk Sample.refreshOk Sample.saveOk
           Sample.context Sample.callbackRequest Sample.opaqueToken Sample.jwtToken
           (mkRequest {[ "code" := ["abc"]; "state" := ["nonce-1"] ]}
              (session (okCallback Sample.callbackRequest)))).
  - vm_compute. discriminate.
  - reflexivity.
  - reflexivity.
  - reflexivity.
  - reflexivity.
Defined.

Lemma callback_keeps_visit_counter :
  Values (session (okCallback Cases.busyCallback)) !! "visits"
  = Values Cases.busySession !! "visits".
Proof.
  apply (ControllersExtra.callback_keeps_other_values
           Sample.errorText Sample.exchangeOk Sample.refreshOk Sample.saveOk
           Sample.context Cases.busyCallback Sample.opaqueToken Sample.jwtToken "visits").
  - vm_compute. discriminate.
  - reflexivity.
  - reflexivity.
  - reflexivity.
  - discriminate.
  - discriminate.
Defined.

Lemma unsaved_callback_still_redirects :
  responseStatus
    (events (OAuthCallback Sample.errorText Sample.exchangeOk Sample.refreshOk
               Cases.saveFails Sample.context Sample.callbackRequest)) = 302
  ∧ cookiesSet Cases.saveFails
      (events (OAuthCallback Sample.errorText Sample.exchangeOk Sample.refreshOk
                 Cases.saveFails Sample.context Sample.callbackRequest)) = [].
Proof.
  destruct (ControllersExtra.callback_redirects_when_save_fails
              Sample.errorText Sample.exchangeOk Sample.refreshOk Cases.saveFails
              Sample.context Sample.callbackRequest Sample.opaqueToken Sample.jwtToken
              (errorString "securecookie: the value is too long"))
    as (Hstatus & _ & _ & Hcookies).
  - vm_compute. discriminate.
  - reflexivity.
  - reflexivity.
  - reflexivity.
  - reflexivity.
  - split; [exact Hstatus | exact Hcookies].
Defined.

Abbreviation firstLogin :=
  (redirect Sample.authCodeURL Sample.saveOk Sample.context Cases.firstVisit).

Lemma first_login_saves_its_state :
  ∃ state, Values (session (snd firstLogin)) !! "state" = Some (VString state)
           ∧ fst firstLogin = None.
Proof.
  destruct (ControllersExtra.redirect_only_with_saved_state
              Sample.authCodeURL Sample.saveOk Sample.context Cases.firstVisit)
    as (Hredirect & _).
  destruct (Hredirect "https://login.example/oauth/authorize?state=nonce-1" 302)
    as (state & _ & _ & _ & _ & Hstored & _ & Hnil).
  - vm_compute. do 2 apply list_elem_of_further. apply list_elem_of_here.
  - exists state. split; [exact Hstored | exact Hnil].
Defined.

(** A login whose state generator fails sends nothing to the browser. *)
Example login_without_entropy :
  redirect Sample.authCodeURL Sample.saveOk Cases.contextWithoutEntropy Cases.firstVisit
  = (Some (errorString "crypto/rand: no entropy"),
     mkOutcome [CallStateGenerator] Sample.freshSession).
Proof. reflexivity. Qed.

(** A login whose session cannot be saved returns the error of the save
    and does not redirect. *)
Example login_with_failing_save :
  redirect Sample.authCodeURL Cases.saveFails Sample.context Cases.firstVisit
  = (Some (errorString "securecookie: the value is too long"),
     mkOutcome
       [CallStateGenerator;
        SessionSave (setValue "state" (VString "nonce-1") Sample.freshSession)]
       (setValue "state" (VString "nonce-1") Sample.freshSession)).
Proof. reflexivity. Qed.

Lemma forged_callback_after_login_is_refused :
  responseStatus
    (events (okCallback (mkRequest {[ "code" := ["abc"]; "state" := ["forged"] ]}
                           (session (snd firstLogin))))) = 401
  ↔ Get {[ "code" := ["abc"]; "state" := ["forged"] ]} "state" ≠ "nonce-1".
Proof.
  refine (ControllersExtra.login_state_opens_callback
            Sample.authCodeURL Sample.saveOk Sample.context Cases.firstVisit "nonce-1"
            Sample.errorText Sample.exchangeOk Sample.refreshOk Sample.context
            (mkRequest {[ "code" := ["abc"]; "state" := ["forged"] ]}
               (session (snd firstLogin))) _ _ _).
  - reflexivity.
  - discriminate.
  - reflexivity.
Defined.

Lemma logout_keeps_pending_state :
  Values (session (Logout Sample.context Cases.busyCallback)) !! "state"
  = Values Cases.busySession !! "state".
Proof.
  apply (ControllersExtra.logout_keeps_other_values Sample.context Cases.busyCallback
           "state").
  discriminate.
Defined.

Lemma refresh_call_of_good_callback :
  InsecureSkipVerify (mkNetContext false) = LocalCF Sample.settings
  ∧ Sample.oauthConfig = OAuthConfig Sample.settings.
Proof.
  destruct (ControllersExtra.callback_provider_calls
              Sample.errorText Sample.exchangeOk Sample.refreshOk Sample.saveOk
              Sample.context Sample.callbackRequest
              (CallTokenSource (mkNetContext false) Sample.oauthConfig
                 (mkToken "" "bearer" "opaque-refresh" 0)))
    as (Hctx & Hcfg & _).
  - vm_compute. apply list_elem_of_further, list_elem_of_here.
  - split; [exact Hctx | exact Hcfg].
Defined.

Lemma failed_ping_answers_500 :
  responseStatus (Ping Sample.errorText Sample.marshalFails Sample.context) = 500
  ∧ head (Ping Sample.errorText Sample.marshalFails Sample.context)
    = Some (WriteHeader 500).
Proof.
  destruct (ControllersExtra.ping_failure_sends_logged_text
              Sample.errorText Sample.marshalFails Sample.context
              (errorString "json: unsupported type"))
    as (Hhead & Hstatus & _).
  - reflexivity.
  - split; [exact Hstatus | exact Hhead].
Defined.

Abbreviation loadWith decode :=
  (InitSettings Sample.randomString decode Sample.newCookieStore).
Abbreviation secureEnvironment := ([Sample.environment "false" "true"]).

Lemma sample_load_has_safe_cookies :
  LocalCF Cases.loadedSettings || Secure (StoreOptions (Sessions Cases.loadedSettings))
  = true.
Proof.
  apply (HelpersExtra.loaded_settings_have_safe_cookies
           Sample.randomString Sample.hexDecode Sample.newCookieStore
           secureEnvironment Cases.loadedSettings).
  reflexivity.
Defined.

Lemma sample_load_derives_endpoints :
  RedirectURL (OAuthConfig Cases.loadedSettings)
  = AppURL Cases.loadedSettings +:+ "/oauth2callback".
Proof.
  apply (HelpersExtra.loaded_settings_derive_endpoints
           Sample.randomString Sample.hexDecode Sample.newCookieStore
           secureEnvironment Cases.loadedSettings).
  reflexivity.
Defined.

Lemma sample_load_comes_from_variables :
  lookupVar secureEnvironment HostnameEnvVar = Some (AppURL Cases.loadedSettings).
Proof.
  apply (HelpersExtra.loaded_settings_come_from_variables
           Sample.randomString Sample.hexDecode Sample.newCookieStore
           secureEnvironment Cases.loadedSettings).
  reflexivity.
Defined.

Lemma sample_load_defaults_build_string :
  BuildInfo Cases.loadedSettings
  = default "developer-build" (lookupVar secureEnvironment BuildInfoEnvVar).
Proof.
  apply (HelpersExtra.loaded_settings_default_optionals
           Sample.randomString Sample.hexDecode Sample.newCookieStore
           secureEnvironment Cases.loadedSettings).
  reflexivity.
Defined.

Lemma malformed_csrf_key_is_classified :
  (∃ name,
     Errorf_q_v "could not decode hex env var %q: %v" CSRFKeyEnvVar (InvalidByteError "z")
     = VarNotFound name
     ∧ lookupVar [Cases.environmentWith CSRFKeyEnvVar (Some "zz")] name = None)
  ∨ Errorf_q_v "could not decode hex env var %q: %v" CSRFKeyEnvVar (InvalidByteError "z")
    = insecureCookiesError
  ∨ (∃ v cause,
       lookupVar [Cases.environmentWith CSRFKeyEnvVar (Some "zz")] CSRFKeyEnvVar = Some v
       ∧ Cases.hexDecodeStrict v = Err cause
       ∧ Errorf_q_v "could not decode hex env var %q: %v" CSRFKeyEnvVar
           (InvalidByteError "z")
         = Errorf_q_v "could not decode hex env var %q: %v" CSRFKeyEnvVar cause)
  ∨ (∃ v cause,
       lookupVar [Cases.environmentWith CSRFKeyEnvVar (Some "zz")]
         SessionAuthenticationEnvVar = Some v
       ∧ Cases.hexDecodeStrict v = Err cause
       ∧ Errorf_q_v "could not decode hex env var %q: %v" CSRFKeyEnvVar
           (InvalidByteError "z")
         = Errorf_q_v "could not decode hex env var %q: %v"
             SessionAuthenticationEnvVar cause)
  ∨ (∃ v,
       lookupVar [Cases.environmentWith CSRFKeyEnvVar (Some "zz")]
         SessionEncryptionEnvVar = Some v
       ∧ Cases.hexDecodeStrict v
         = Err (Errorf_q_v "could not decode hex env var %q: %v" CSRFKeyEnvVar
                  (InvalidByteError "z"))).
Proof.
  apply (HelpersExtra.returned_errors_are_classified
           Sample.randomString Cases.hexDecodeStrict Sample.newCookieStore
           [Cases.environmentWith CSRFKeyEnvVar (Some "zz")]).
  reflexivity.
Defined.

(** An unbound host name is reported by its name, and a malformed session
    encryption key by the bare error of the decoder. *)
Example missing_hostname_is_named :
  loadWith Sample.hexDecode [Cases.environmentWith HostnameEnvVar None]
  = ReturnedErr (VarNotFound HostnameEnvVar).
Proof. reflexivity. Qed.

Example malformed_encryption_key_is_bare :
  loadWith Cases.hexDecodeStrict [Cases.environmentWith SessionEncryptionEnvVar (Some "zz")]
  = ReturnedErr (InvalidByteError "z").
Proof. reflexivity. Qed.

Lemma malformed_flag_panics :
  ∃ name v,
    name ∈ [PProfEnabledEnvVar; LocalCFEnvVar; SecureCookiesEnvVar]
    ∧ lookupVar [Cases.environmentWith PProfEnabledEnvVar (Some "maybe")] name = Some v
    ∧ ParseBool v = Err (ParseError "maybe")
    ∧ ParseError "maybe" = ParseError v.
Proof.
  apply (HelpersExtra.panics_come_from_malformed_flags
           Sample.randomString Sample.hexDecode Sample.newCookieStore
           [Cases.environmentWith PProfEnabledEnvVar (Some "maybe")]).
  reflexivity.
Defined.

Lemma complete_environment_loads :
  ∃ s, loadWith Sample.hexDecode secureEnvironment = ReturnedNil s
       ∧ PProfEnabled s = false ∧ LocalCF s = false ∧ SecureCookies s = true.
Proof.
  apply (HelpersExtra.load_succeeds_on_complete_environment
           Sample.randomString Sample.hexDecode Sample.newCookieStore
           secureEnvironment false false true).
  - repeat constructor; by eexists.
  - reflexivity.
  - reflexivity.
  - reflexivity.
  - reflexivity.
  - repeat constructor; by do 2 eexists.
Defined.

Lemma service_binding_is_found :
  Sample.environment "false" "true" BuildInfoEnvVar = Some "ups-build"
  ∨ (Sample.environment "false" "true" BuildInfoEnvVar = None
     ∧ ∃ raw, raw ∈ Sample.split "dashboard-ups" ":" ∧ Sample.trimSpace raw ≠ ""
              ∧ Cases.upsBuild tt (Sample.trimSpace raw) BuildInfoEnvVar
                = Some "ups-build").
Proof.
  apply (ServerExtra.ups_set_prefers_process_environment
           unit (Sample.environment "false" "true") Cases.upsBuild
           Sample.split Sample.trimSpace tt "dashboard-ups" BuildInfoEnvVar "ups-build").
  reflexivity.
Defined.

(** The default set reads the same variable from the service first. *)
Example default_set_reads_service_build :
  lookupVar
    (makeDefaultEnvVarSet unit (Sample.environment "false" "true") Cases.upsBuild (Some tt))
    BuildInfoEnvVar
  = Some "ups-build".
Proof. reflexivity. Qed.

Lemma hostname_is_found_without_application :
  lookupVar
    (chooseEnvVarSet unit Sample.getenv (Sample.environment "false" "true") Sample.noUPS
       Sample.split Sample.trimSpace None)
    HostnameEnvVar
  = Some "https://dashboard.example".
Proof.
  apply (ServerExtra.chosen_set_consults_process_environment
           unit Sample.getenv (Sample.environment "false" "true") Sample.noUPS
           Sample.split Sample.trimSpace None HostnameEnvVar "https://dashboard.example").
  reflexivity.
Defined.

Abbreviation startOn lookup :=
  (startApp unit unit Sample.errorText Sample.getenv lookup Sample.noUPS
     Sample.split Sample.trimSpace Sample.randomString Sample.hexDecode
     Sample.newCookieStore Sample.routerOk).

Lemma secure_start_listens_last :
  last (startOn (Sample.environment "false" "true") "9999" None)
  = Some (ListenAndServe ":9999" "00ff" true).
Proof.
  destruct (ServerExtra.start_listens_last_with_loaded_settings
              unit unit Sample.errorText Sample.getenv
              (Sample.environment "false" "true") Sample.noUPS
              Sample.split Sample.trimSpace Sample.randomString Sample.hexDecode
              Sample.newCookieStore Sample.routerOk "9999" None ":9999" "00ff" true)
    as (router & settings & _ & _ & _ & _ & Hlast & _).
  - vm_compute. apply list_elem_of_further, list_elem_of_here.
  - exact Hlast.
Defined.

Lemma insecure_start_is_local :
  false = true
  ∨ ∃ v, lookupVar
           (chooseEnvVarSet unit Sample.getenv (Sample.environment "true" "false")
              Sample.noUPS Sample.split Sample.trimSpace None)
           LocalCFEnvVar = Some v
         ∧ ParseBool v = Ok true.
Proof.
  apply (ServerExtra.start_never_serves_insecure_production
           unit unit Sample.errorText Sample.getenv
           (Sample.environment "true" "false") Sample.noUPS
           Sample.split Sample.trimSpace Sample.randomString Sample.hexDecode
           Sample.newCookieStore Sample.routerOk "9999" None ":9999" "00ff" false).
  vm_compute. apply list_elem_of_further, list_elem_of_here.
Defined.

Abbreviation mainOn port :=
  (main unit unit Sample.errorText (Cases.getenvPort port)
     (Sample.environment "false" "true") Sample.noUPS Sample.split Sample.trimSpace
     Sample.randomString Sample.hexDecode Sample.newCookieStore Sample.routerOk
     (None, Some (errorString "cfenv: not running on Cloud Foundry"))).

Lemma main_announces_port_8080 :
  head (mainOn "8080") = Some (PrintLine "using port: 8080").
Proof.
  apply (ServerExtra.main_serves_on_configured_port
           unit unit Sample.errorText (Cases.getenvPort "8080")
           (Sample.environment "false" "true") Sample.noUPS Sample.split
           Sample.trimSpace Sample.randomString Sample.hexDecode Sample.newCookieStore
           Sample.routerOk (None, Some (errorString "cfenv: not running on Cloud Foundry"))
           ":8080" "00ff" true).
  vm_compute. do 3 apply list_elem_of_further. apply list_elem_of_here.
Defined.

(** Without PORT the process serves on the default port. *)
Example main_without_port :
  mainOn ""
  = [PrintLine "using port: 9999";
     PrintLine "Warning: No Cloud Foundry Environment found";
     PrintLine "starting app now...";
     ListenAndServe ":9999" "00ff" true].
Proof. reflexivity. Qed.

End MoreInstances.
